(** * MLB trends dashboard: feature engineering and win model

    A shallow embedding of [src/app_dashboard.py]: the team-game
    flattener ([team_game_view]), the rolling win percentage
    ([_Roll.winpct], [rolling_win_pct]), the home-win dataset
    ([build_home_win_dataset]) and the model tab of [render_tab].

    Conventions.
    - A pandas DataFrame is a list of rows (a record per frame layout),
      in positional order.  A Series is a list; a missing value (NaN) in
      a float column is [None].
    - Python integers are [Z].  Dates (pandas Timestamps) are [Z], ordered
      chronologically.
    - The rolling means are quotients of an integer sum of 0/1 flags by a
      count; they are kept as exact rationals [Q].  (pandas holds the
      correctly rounded double of the same quotient.)
    - A raised Python exception is the [Raise] outcome of [result]. *)

From Stdlib Require Import String.
From Stdlib Require Import ZArith QArith List Bool Lia.
From Stdlib Require Import Permutation Sorted.
Import ListNotations.

Local Open Scope Z_scope.

(** ** Exceptions and outcomes *)

Inductive exn : Type :=
| ValueError (msg : string).

Inductive result (A : Type) : Type :=
| Return (a : A)
| Raise (e : exn).

Arguments Return {A} a.
Arguments Raise {A} e.

Definition bind {A B : Type} (r : result A) (k : A -> result B) : result B :=
  match r with
  | Return a => k a
  | Raise e => Raise e
  end.

Notation "x <- r ;; k" := (bind r (fun x => k))
  (at level 61, r at next level, right associativity).

(** ** Frames *)

(** A row of [GAMES]: the columns selected by [load_games], whose query
    keeps only rows with both scores non-null. *)
Module Game.
Record t : Type := mk {
  game_id : Z;
  date : Z;
  home_team_id : Z;
  away_team_id : Z;
  home_score : Z;
  away_score : Z
}.
End Game.

(** A row of the frame returned by [team_game_view]. *)
Module TG.
Record t : Type := mk {
  game_id : Z;
  date : Z;
  team_id : Z;
  opp_id : Z;
  runs_for : Z;
  runs_against : Z;
  is_home : Z;
  win : Z
}.
End TG.

(** A row of the frame returned by [build_home_win_dataset]. *)
Module DS.
Record t : Type := mk {
  game_id : Z;
  date : Z;
  home_team_id : Z;
  away_team_id : Z;
  home_score : Z;
  away_score : Z;
  home_r10 : option Q;
  away_r10 : option Q;
  home_win : Z;
  r10_diff : Q;
  is_home : Z
}.
End DS.

(** [(a > b).astype(int)] *)
Definition gt_int (a b : Z) : Z := if b <? a then 1 else 0.

(** ** team_game_view *)

Definition home_view (g : Game.t) : TG.t :=
  TG.mk (Game.game_id g) (Game.date g) (Game.home_team_id g) (Game.away_team_id g)
        (Game.home_score g) (Game.away_score g) 1
        (gt_int (Game.home_score g) (Game.away_score g)).

Definition away_view (g : Game.t) : TG.t :=
  TG.mk (Game.game_id g) (Game.date g) (Game.away_team_id g) (Game.home_team_id g)
        (Game.away_score g) (Game.home_score g) 0
        (gt_int (Game.away_score g) (Game.home_score g)).

(** [pd.concat([home, away], ignore_index=True)], then the [win] column. *)
Definition team_game_view (games : list Game.t) : list TG.t :=
  map home_view games ++ map away_view games.

(** ** pandas [Series.rolling(window, min_periods).mean()] *)

Record Rolling : Type := mkRolling {
  obj : list Z;
  window : Z;
  min_periods : Z
}.

(** The constructor validates its arguments before anything is computed
    (pandas [BaseWindow._validate]); the messages are kept without the
    numbers pandas prints in them. *)
Definition rolling (s : list Z) (window min_periods : Z) : result Rolling :=
  if min_periods <? 0 then Raise (ValueError "min_periods must be >= 0")
  else if window <? min_periods then Raise (ValueError "min_periods must be <= window")
  else if window <? 0 then Raise (ValueError "window must be an integer 0 or greater")
  else Return (mkRolling s window min_periods).

Definition sumZ (l : list Z) : Z := fold_right Z.add 0 l.

(** First position of the window that ends at position [i] (inclusive):
    the window holds positions [i - window + 1 .. i], cut at 0. *)
Definition window_start (window : Z) (i : nat) : nat :=
  Z.to_nat (Z.max 0 (Z.of_nat i + 1 - window)).

Definition window_at (s : list Z) (window : Z) (i : nat) : list Z :=
  skipn (window_start window i) (firstn (S i) s).

(** The mean at position [i]: absent unless the window holds at least
    [min_periods] observations (and at least one). *)
Definition mean_at (r : Rolling) (i : nat) : option Q :=
  let w := window_at (obj r) (window r) i in
  let nobs := Z.of_nat (length w) in
  if (min_periods r <=? nobs) && (0 <? nobs)
  then Some (Qmake (sumZ w) (Z.to_pos nobs))
  else None.

Definition mean (r : Rolling) : list (option Q) :=
  map (mean_at r) (seq 0 (length (obj r))).

(** ** _Roll.winpct *)

Definition winpct (obj : list TG.t) (window : Z) : result (list (option Q)) :=
  r <- rolling (map TG.win obj) window (Z.max 1 (window / 2)) ;;
  Return (mean r).

(** ** rolling_win_pct *)

Definition date_le (a b : TG.t) : Prop := TG.date a <= TG.date b.

(** [DataFrame.sort_values("date")] sorts on a single column with the
    default algorithm, which does not promise the order of rows with
    equal dates.  The sort is therefore a parameter of the model, known
    only to return its input rearranged in ascending date order. *)
Record date_sort (sort_values : list TG.t -> list TG.t) : Prop := {
  sort_perm : forall l, Permutation l (sort_values l);
  sort_sorted : forall l, StronglySorted date_le (sort_values l)
}.

Definition rolling_win_pct (sort_values : list TG.t -> list TG.t)
    (df : list TG.t) (team_id : Z) (window : Z)
  : result (list (TG.t * option Q)) :=
  let t := sort_values (filter (fun r => TG.team_id r =? team_id) df) in
  s <- winpct t window ;;
  Return (combine t s).

(** ** Stable sort on several columns

    [sort_values(["team_id", "date"])] sorts on several columns, which
    pandas does with a stable lexicographic sort. *)

Section StableSort.
Context {A : Type} (leb : A -> A -> bool).

Fixpoint insert_sorted (x : A) (l : list A) : list A :=
  match l with
  | [] => [x]
  | y :: l' => if leb x y then x :: l else y :: insert_sorted x l'
  end.

Definition stable_sort (l : list A) : list A :=
  fold_right insert_sorted [] l.
End StableSort.

Definition team_date_leb (a b : TG.t) : bool :=
  (TG.team_id a <? TG.team_id b)
  || ((TG.team_id a =? TG.team_id b) && (TG.date a <=? TG.date b)).

(** ** groupby(key)[col].transform(f)

    [f] is applied to the series of each group (the rows with one key,
    in frame order); each row receives the value computed at its rank
    within its group. *)

Section GroupBy.
Context {A B : Type} (key : A -> Z) (col : A -> Z)
        (f : list Z -> list (option B)).

Definition group (k : Z) (rows : list A) : list A :=
  filter (fun r => key r =? k) rows.

Definition transform_at (rows : list A) (p : nat) (r : A) : option B :=
  let rank := length (group (key r) (firstn p rows)) in
  nth rank (f (map col (group (key r) rows))) None.

Fixpoint transform_from (rows : list A) (p : nat) (rest : list A)
  : list (option B) :=
  match rest with
  | [] => []
  | r :: rest' => transform_at rows p r :: transform_from rows (S p) rest'
  end.

Definition groupby_transform (rows : list A) : list (option B) :=
  transform_from rows 0 rows.
End GroupBy.

(** [s.rolling(10, min_periods=5).mean()]; the constructor accepts these
    constants (lemma [rolling_10_5] below). *)
Definition rolling_10_5_mean (s : list Z) : list (option Q) :=
  mean (mkRolling s 10 5).

(** ** build_home_win_dataset *)

(** A row of [home] / [away]: game_id, team id, date, r10. *)
Record SideRow : Type := mkSide {
  side_game_id : Z;
  side_team_id : Z;
  side_date : Z;
  side_r10 : option Q
}.

Definition side_row (x : TG.t * option Q) : SideRow :=
  mkSide (TG.game_id (fst x)) (TG.team_id (fst x)) (TG.date (fst x)) (snd x).

(** [left.merge(right, on=keys, how="left")]: every left row, in order,
    once per matching right row (in right order), or once with the right
    columns absent when nothing matches. *)
Section MergeLeft.
Context {L R V : Type} (on : L -> R -> bool) (val : R -> option V).

Definition merge_row (l : L) (right : list R) : list (L * option V) :=
  match filter (on l) right with
  | [] => [(l, None)]
  | ms => map (fun r => (l, val r)) ms
  end.

Definition merge_left (left : list L) (right : list R) : list (L * option V) :=
  flat_map (fun l => merge_row l right) left.
End MergeLeft.

Definition on_home (g : Game.t) (h : SideRow) : bool :=
  (Game.game_id g =? side_game_id h) && (Game.date g =? side_date h)
  && (Game.home_team_id g =? side_team_id h).

Definition on_away (m : Game.t * option Q) (a : SideRow) : bool :=
  (Game.game_id (fst m) =? side_game_id a) && (Game.date (fst m) =? side_date a)
  && (Game.away_team_id (fst m) =? side_team_id a).

(** [Series.fillna(d)] *)
Definition fillna (d : Q) (o : option Q) : Q :=
  match o with
  | Some v => v
  | None => d
  end.

Definition half : Q := Qmake 1 2.

(** The row of [m] after the derived columns are added. *)
Definition derive (x : (Game.t * option Q) * option Q) : DS.t :=
  let g := fst (fst x) in
  let h := snd (fst x) in
  let a := snd x in
  DS.mk (Game.game_id g) (Game.date g) (Game.home_team_id g) (Game.away_team_id g)
        (Game.home_score g) (Game.away_score g) h a
        (gt_int (Game.home_score g) (Game.away_score g))
        (Qminus (fillna half h) (fillna half a))
        1.

Definition notna {V : Type} (o : option V) : bool :=
  match o with
  | Some _ => true
  | None => false
  end.

(** [dropna(subset=["home_r10", "away_r10"])] *)
Definition dropna_r10 (m : list DS.t) : list DS.t :=
  filter (fun r => notna (DS.home_r10 r) && notna (DS.away_r10 r)) m.

(** The frame [tg] with its [r10] column. *)
Definition with_r10 (TEAM_GAMES : list TG.t) : list (TG.t * option Q) :=
  let tg := stable_sort team_date_leb TEAM_GAMES in
  combine tg (groupby_transform TG.team_id TG.win rolling_10_5_mean tg).

Definition build_home_win_dataset (TEAM_GAMES : list TG.t) (games : list Game.t)
  : list DS.t :=
  let tg := with_r10 TEAM_GAMES in
  let home := map side_row (filter (fun x => TG.is_home (fst x) =? 1) tg) in
  let away := map side_row (filter (fun x => TG.is_home (fst x) =? 0) tg) in
  let m := merge_left on_home side_r10 games home in
  let m := merge_left on_away side_r10 m away in
  dropna_r10 (map derive m).

(** ** Double-precision arithmetic of [int(len(ds) * 0.8)]

    Only what the split index needs: finite non-negative doubles, the
    conversion of an integer, the correctly rounded product and the
    truncation to an integer. *)

Module Float64.
(** The double [m * 2^e], with [m <= 2^53]. *)
Definition t : Type := (Z * Z)%type.

(** [a / 2^s] rounded to the nearest integer, ties to even. *)
Definition rne (a s : Z) : Z :=
  let q := a / 2 ^ s in
  let r := a mod 2 ^ s in
  if 2 * r <? 2 ^ s then q
  else if 2 ^ s <? 2 * r then q + 1
  else if Z.even q then q else q + 1.

(** The exact value [m * 2^e] rounded to 53 significant bits. *)
Definition round (m e : Z) : t :=
  if m <? 2 ^ 53 then (m, e)
  else let s := Z.log2 m - 52 in (rne m s, e + s).

Definition of_int (n : Z) : t := round n 0.

Definition mul (x y : t) : t := round (fst x * fst y) (snd x + snd y).

(** [int(x)]: truncation. *)
Definition to_int (x : t) : Z :=
  if 0 <=? snd x then fst x * 2 ^ snd x else fst x / 2 ^ (- snd x).

(** The literal [0.8]: the double nearest to 4/5, 0x3FE999999999999A. *)
Definition c0_8 : t := (3602879701896397, -52).
End Float64.

(** [int(n * 0.8)] *)
Definition split_index (n : Z) : Z :=
  Float64.to_int (Float64.mul (Float64.of_int n) Float64.c0_8).

(** [l[-k:]] as taken by [DataFrame.tail(k)] *)
Definition tail {A : Type} (k : nat) (l : list A) : list A :=
  skipn (length l - k) l.

(** ** The dashboard callback *)

Section Dashboard.
(** scikit-learn: the doubles it returns, a fitted
    [LogisticRegression(max_iter=1000)], and the calls made on it. *)
Variable F : Type.
Variable Model : Type.
Variable fit : list (Q * Z) -> list Z -> result Model.
Variable predict_proba : Model -> list (Q * Z) -> list F.
Variable coef_ : Model -> list F.
Variable roc_auc_score : list Z -> list F -> result F.

(** pandas' single-column sort (see [date_sort]). *)
Variable sort_values : list TG.t -> list TG.t.

(** Module-level state, read once from the database. *)
Variable GAMES : list Game.t.
Variable ABBR_BY_ID : Z -> option string.

Definition TEAM_GAMES : list TG.t := team_game_view GAMES.
Definition HOME_DS : list DS.t := build_home_win_dataset TEAM_GAMES GAMES.

(** Calls into scikit-learn, in the order they are made. *)
Inductive Event : Type :=
| CallFit (X : list (Q * Z)) (y : list Z)
| CallPredictProba (X : list (Q * Z))
| CallRocAucScore (y : list Z) (score : list F).

(** A computation that logs its library calls and may raise. *)
Definition traced (A : Type) : Type := (list Event * result A)%type.

Definition tret {A : Type} (a : A) : traced A := ([], Return a).

Definition tbind {A B : Type} (m : traced A) (k : A -> traced B) : traced B :=
  match m with
  | (tr, Return a) => let (tr', r) := k a in (tr ++ tr', r)
  | (tr, Raise e) => (tr, Raise e)
  end.

Definition call {A : Type} (ev : Event) (r : result A) : traced A := ([ev], r).

Definition lift {A : Type} (r : result A) : traced A := ([], r).

(** A row of the table under the coefficient chart. *)
Record TestRow : Type := mkTestRow {
  test_row : DS.t;
  pred_home_win : F;
  home : option string;
  away : option string
}.

(** What the callback hands to the page. *)
Inductive Html : Type :=
| TrendView (points : list (Z * option Q)) (shown : nat)
| RunsView (bars : list (Z * Z)) (shown : nat)
| Message (text : string)
| ModelView (coef : list F) (auc : F) (tbl : list TestRow).

Definition not_enough : string :=
  "Not enough historical games in selected range for training. Expand the date range.".

Definition in_range (start end_ d : Z) : bool := (start <=? d) && (d <=? end_).

(** [test_view.assign(pred_home_win=proba)] refuses a column of the
    wrong length. *)
Definition assign_proba (test_view : list DS.t) (proba : list F)
  : result (list (DS.t * F)) :=
  if (length proba =? length test_view)%nat
  then Return (combine test_view proba)
  else Raise (ValueError "Length of values does not match length of index").

Definition test_table (rows : list (DS.t * F)) : list TestRow :=
  map (fun x => mkTestRow (fst x) (snd x)
                  (ABBR_BY_ID (DS.home_team_id (fst x)))
                  (ABBR_BY_ID (DS.away_team_id (fst x)))) rows.

(** The model tab.  [dropna(subset=["r10_diff"])] keeps every row:
    [r10_diff] is computed after [fillna] and holds no missing value. *)
Definition model_tab (start end_ : Z) : traced Html :=
  let ds := filter (fun r => in_range start end_ (DS.date r)) HOME_DS in
  if Z.of_nat (length ds) <? 50 then tret (Message not_enough)
  else
    let X := map (fun r => (DS.r10_diff r, DS.is_home r)) ds in
    let y := map DS.home_win ds in
    let split_idx := Z.to_nat (split_index (Z.of_nat (length ds))) in
    let X_train := firstn split_idx X in
    let X_test := skipn split_idx X in
    let y_train := firstn split_idx y in
    let y_test := skipn split_idx y in
    tbind (call (CallFit X_train y_train) (fit X_train y_train)) (fun model =>
    tbind (call (CallPredictProba X_test) (Return (predict_proba model X_test))) (fun proba =>
    tbind (call (CallRocAucScore y_test proba) (roc_auc_score y_test proba)) (fun auc =>
    tbind (lift (assign_proba (skipn split_idx ds) proba)) (fun test_view =>
    tret (ModelView (coef_ model) auc (tail 20 (test_table test_view))))))).

Definition trend_tab (team_id window start end_ : Z) : traced Html :=
  tbind (lift (rolling_win_pct sort_values TEAM_GAMES team_id window)) (fun df =>
  let df := filter (fun x => in_range start end_ (TG.date (fst x))) df in
  tret (TrendView (map (fun x => (TG.date (fst x), snd x)) df) (length df))).

Definition runs_tab (team_id start end_ : Z) : traced Html :=
  let df := filter (fun r => TG.team_id r =? team_id) TEAM_GAMES in
  let df := filter (fun r => in_range start end_ (TG.date r)) df in
  tret (RunsView (map (fun r => (TG.date r, TG.runs_for r - TG.runs_against r)) df)
                 (length df)).

Definition render_tab (tab : string) (team_id window start end_ : Z) : traced Html :=
  if String.eqb tab "tab-trend" then trend_tab team_id window start end_
  else if String.eqb tab "tab-runs" then runs_tab team_id start end_
  else model_tab start end_.
End Dashboard.

Arguments Message {F} text.
Arguments TrendView {F} points shown.
Arguments RunsView {F} bars shown.
Arguments ModelView {F} coef auc tbl.
Arguments CallFit {F} X y.
Arguments CallPredictProba {F} X.
Arguments CallRocAucScore {F} y score.
Arguments assign_proba {F} test_view proba.
Arguments test_table {F} ABBR_BY_ID rows.

(** ** Notions used in the statements *)

(** The label classes of a vector, as [np.unique] lists them. *)
Definition classes (y : list Z) : list Z := nodup Z.eq_dec y.

(** The row [r] with its win flag set to [w]. *)
Definition set_win (r : TG.t) (w : Z) : TG.t :=
  TG.mk (TG.game_id r) (TG.date r) (TG.team_id r) (TG.opp_id r)
        (TG.runs_for r) (TG.runs_against r) (TG.is_home r) w.

(** The list [l] with [f] applied to its element at position [j], the
    other elements unchanged. *)
Fixpoint replace_at {A : Type} (f : A -> A) (j : nat) (l : list A) {struct l}
  : list A :=
  match l, j with
  | [], _ => []
  | x :: l', O => f x :: l'
  | x :: l', S j' => x :: replace_at f j' l'
  end.

(** A library call that is handed an empty sample. *)
Definition empty_call {F : Type} (ev : Event F) : Prop :=
  match ev with
  | CallFit X y => X = [] \/ y = []
  | CallPredictProba X => X = []
  | CallRocAucScore y score => y = []
  end.

Definition is_fit {F : Type} (ev : Event F) : Prop :=
  match ev with
  | CallFit _ _ => True
  | _ => False
  end.

(** ** A runnable instance

    A stable date sort for [sort_values], and stand-ins for the
    scikit-learn calls that keep their input checks.  A double is a
    rational or NaN.  [fit] refuses labels of fewer than two classes.
    [roc_auc_score] refuses a NaN among the scores and answers NaN for
    labels that are not of exactly two classes, as scikit-learn does
    today, with a warning; its earlier versions raised a [ValueError]
    there.  The other numbers are placeholders: the fitted model is a
    fixed slope applied to [r10_diff]. *)

Definition date_leb (a b : TG.t) : bool := TG.date a <=? TG.date b.

Definition sort_by_date : list TG.t -> list TG.t := stable_sort date_leb.

Module Ref.
(** A double: a number, or NaN. *)
Definition F : Type := option Q.

Definition nan : F := None.

Definition fit (X : list (Q * Z)) (y : list Z) : result Q :=
  if (length (classes y) <? 2)%nat
  then Raise (ValueError "This solver needs samples of at least 2 classes in the data")
  else Return (Qmake 1 2).

Definition predict_proba (slope : Q) (X : list (Q * Z)) : list F :=
  map (fun x => Some (Qred (Qplus (Qmake 1 2) (Qmult slope (fst x))))) X.

Definition coef_ (slope : Q) : list F := [Some slope; Some 0%Q].

(** Twice the number of (positive, negative) pairs ranked in order,
    ties counting once. *)
Definition concordance (pos neg : list Q) : Z :=
  sumZ (flat_map (fun p => map (fun n =>
    match Qcompare n p with Lt => 2 | Eq => 1 | Gt => 0 end) neg) pos).

(** The scores as numbers, unless one of them is NaN. *)
Fixpoint numbers (score : list F) : option (list Q) :=
  match score with
  | [] => Some []
  | None :: _ => None
  | Some q :: rest => option_map (cons q) (numbers rest)
  end.

Definition roc_auc_score (y : list Z) (score : list F) : result F :=
  match numbers score with
  | None => Raise (ValueError "Input contains NaN.")
  | Some qs =>
    if negb (length (classes y) =? 2)%nat
    then Return nan
    else
      let top := fold_right Z.max 0 y in
      let rows := combine y qs in
      let pos := map snd (filter (fun r => fst r =? top) rows) in
      let neg := map snd (filter (fun r => negb (fst r =? top)) rows) in
      Return (Some (Qred (Qmake (concordance pos neg)
                                (Z.to_pos (2 * Z.of_nat (length pos * length neg))))))
  end.

Definition ABBR_BY_ID (team_id : Z) : option string :=
  if team_id =? 1 then Some "NYY"%string
  else if team_id =? 2 then Some "BOS"%string
  else None.

(** The callback over the stand-ins, for a given [GAMES] table. *)
Definition render_tab (GAMES : list Game.t) (tab : string)
    (team_id window start end_ : Z) : traced F (Html F) :=
  render_tab F Q fit predict_proba coef_ roc_auc_score sort_by_date GAMES
             ABBR_BY_ID tab team_id window start end_.
End Ref.

(** Sample seasons between two teams, one game a day, team 1 at home. *)
Definition season (home_won : nat -> bool) (n : nat) : list Game.t :=
  map (fun i => Game.mk (Z.of_nat i) (Z.of_nat i) 1 2
                        (if home_won i then 5 else 2) 3)
      (seq 1 n).

(** Sixty games that the home team always wins. *)
Definition home_sweep : list Game.t := season (fun _ => true) 60.

(** Sixty games: alternating winners until day 44, then home wins. *)
Definition late_streak : list Game.t :=
  season (fun i => Nat.odd i || (44 <? i)%nat) 60.

(** A drawn game. *)
Definition drawn_game : Game.t := Game.mk 7 20 1 2 3 3.

(** Four losses and then a win for team 1. *)
Definition five_games : list Game.t := season (fun i => (4 <? i)%nat) 5.

(** [v] is the rolling form that the frame [tg] holds, before the join,
    for the row of game [gid] on date [d] seen from team [team] on side
    [side] (1 home, 0 away). *)
Definition form_before_join (TEAM_GAMES : list TG.t) (side gid d team : Z) (v : Q)
  : Prop :=
  exists x, In x (with_r10 TEAM_GAMES)
            /\ TG.is_home (fst x) = side /\ TG.game_id (fst x) = gid
            /\ TG.date (fst x) = d /\ TG.team_id (fst x) = team
            /\ snd x = Some v.

(** The game columns of a dataset row. *)
Definition ds_game (r : DS.t) : Game.t :=
  Game.mk (DS.game_id r) (DS.date r) (DS.home_team_id r) (DS.away_team_id r)
          (DS.home_score r) (DS.away_score r).

(** Decidable checks of the two facts [load_games] provides about
    [GAMES]: ascending dates ([ORDER BY date]) and distinct game ids
    (primary key). *)
Fixpoint sortedb (l : list Z) : bool :=
  match l with
  | [] => true
  | x :: l' =>
    match l' with
    | [] => true
    | y :: _ => (x <=? y) && sortedb l'
    end
  end.

Fixpoint nodupb (l : list Z) : bool :=
  match l with
  | [] => true
  | x :: l' => negb (existsb (Z.eqb x) l') && nodupb l'
  end.

(** The row of the fifth day of [late_streak] in the dataset. *)
Definition day5_row : DS.t :=
  DS.mk 5 5 1 2 5 3 (Some (Qmake 3 5)) (Some (Qmake 2 5)) 1
        (Qminus (Qmake 3 5) (Qmake 2 5)) 1.

From Stdlib Require Import Lqa.
From Stdlib Require Import Ascii DecimalString DecimalZ DecimalPos.

(** ** Notions used in the further properties *)

(** A win flag. *)
Definition is_flag (x : Z) : Prop := 0 <= x <= 1.

(** The rolling form that the frame [tg] holds for the row of game [gid]
    on side [side] (1 home, 0 away); absent if it has no such row. *)
Definition r10_at (tg : list (TG.t * option Q)) (side gid : Z) : option Q :=
  match find (fun x => (TG.is_home (fst x) =? side) && (TG.game_id (fst x) =? gid)) tg with
  | Some x => snd x
  | None => None
  end.

(** * The loaders

    [load_games.py], [load_teams.py], [load_nodes.py],
    [load_player_game_stats.py] and [load_pitcher_game_stats.py] in two
    layers: what the Python code does with the decoded API documents and
    which statements it executes with which arguments; and what the SQL
    statements do to a table. *)

(** ** Python values of a decoded JSON document

    Numbers are integers, as the API sends its ids, scores and counters;
    a dict is the list of its items, each key once, in insertion order. *)

#[local] Unset Elimination Schemes.
Inductive py : Type :=
| PNone
| PBool (b : bool)
| PInt (n : Z)
| PStr (s : string)
| PList (items : list py)
| PDict (items : list (string * py)).
#[local] Set Elimination Schemes.

(** Exceptions that the loaders let escape. *)
Inductive pyerr : Type :=
| AttributeError
| TypeError
| KeyError (key : string).

Inductive attempt (A : Type) : Type :=
| Ok (a : A)
| Err (e : pyerr).

Arguments Ok {A} a.
Arguments Err {A} e.

Definition and_then {A B : Type} (r : attempt A) (k : A -> attempt B) : attempt B :=
  match r with
  | Ok a => k a
  | Err e => Err e
  end.

Notation "x <~ r ;; k" := (and_then r (fun x => k))
  (at level 61, r at next level, right associativity).

(** [bool(x)] *)
Definition truthy (x : py) : bool :=
  match x with
  | PNone => false
  | PBool b => b
  | PInt n => negb (n =? 0)
  | PStr s => negb (String.eqb s "")
  | PList items => match items with [] => false | _ => true end
  | PDict items => match items with [] => false | _ => true end
  end.

(** [x or y] *)
Definition por (x y : py) : py := if truthy x then x else y.

Fixpoint dict_get (items : list (string * py)) (k : string) : option py :=
  match items with
  | [] => None
  | (k', v) :: rest => if String.eqb k' k then Some v else dict_get rest k
  end.

(** [o.get(k, default)]; only a dict has the method. *)
Definition py_get (o : py) (k : string) (default : py) : attempt py :=
  match o with
  | PDict items =>
    Ok (match dict_get items k with Some v => v | None => default end)
  | _ => Err AttributeError
  end.

(** [o[k]] with a string key. *)
Definition py_getitem (o : py) (k : string) : attempt py :=
  match o with
  | PDict items =>
    match dict_get items k with
    | Some v => Ok v
    | None => Err (KeyError k)
    end
  | _ => Err TypeError
  end.

(** [s.partition(sep)] for a one-character separator. *)
Fixpoint str_partition (sep : ascii) (s : string) : string * string * string :=
  match s with
  | EmptyString => (EmptyString, EmptyString, EmptyString)
  | String a s' =>
    if Ascii.eqb a sep then (EmptyString, String sep EmptyString, s')
    else let '(head, found, rest) := str_partition sep s' in (String a head, found, rest)
  end.

(** [s[:n]] *)
Fixpoint str_prefix (n : nat) (s : string) : string :=
  match n, s with
  | S n', String a s' => String a (str_prefix n' s')
  | _, _ => EmptyString
  end.

(** [str(n)] for an integer. *)
Definition str_of_int (n : Z) : string := NilZero.string_of_int (Z.to_int n).

(** A statement executed on the cursor, with its arguments, or a commit.
    [L] is the type of a box-score line. *)
Inductive action (L : Type) : Type :=
| UpsertMinPlayer (pid name team_id : py)
| InsertRow (game_id : Z) (player_id : py) (line : L)
| Commit.

Arguments UpsertMinPlayer {L} pid name team_id.
Arguments InsertRow {L} game_id player_id line.
Arguments Commit {L}.


(** ** Box scores: what both stat loaders share *)

Section BoxScore.
(** [int(s)] for a string, [None] when it raises [ValueError]. *)
Variable int_of_str : string -> option Z.

(** [int(x)], [None] when it raises. *)
Definition py_int (x : py) : option Z :=
  match x with
  | PNone => None
  | PBool b => Some (if b then 1 else 0)
  | PInt n => Some n
  | PStr s => int_of_str s
  | PList _ => None
  | PDict _ => None
  end.

Definition to_int (x : py) : Z :=
  match py_int x with
  | Some n => n
  | None => 0
  end.

Definition upsert_min_player {L : Type} (person team_id : py) : attempt (list (action L)) :=
  pid <~ py_get person "id" PNone ;;
  if negb (truthy pid) then Ok []
  else
    name <~ py_get person "fullName" (PStr "") ;;
    Ok [UpsertMinPlayer pid name team_id].

(** The loop of [load_player_game_stats] and of
    [load_pitcher_game_stats], which differ in the line they extract, the
    test that a line has content and the table they write. *)
Section Loader.
Context {L : Type} (extract : py -> attempt L) (any_line : L -> bool).

(** One entry of [players.items()]: the calls made and the rows counted. *)
Definition load_player (gid : Z) (team_id node : py) : attempt (list (action L) * Z) :=
  person0 <~ py_get node "person" PNone ;;
  let person := por person0 (PDict []) in
  pid <~ py_get person "id" PNone ;;
  if negb (truthy pid) then Ok ([], 0)
  else
    ups <~ (if truthy team_id then upsert_min_player person team_id else Ok []) ;;
    line <~ extract node ;;
    if any_line line then Ok (ups ++ [InsertRow gid pid line], 1)
    else Ok (ups, 0).

Fixpoint load_nodes (gid : Z) (team_id : py) (nodes : list (string * py))
  : attempt (list (action L) * Z) :=
  match nodes with
  | [] => Ok ([], 0)
  | (_, node) :: rest =>
    a <~ load_player gid team_id node ;;
    b <~ load_nodes gid team_id rest ;;
    Ok (fst a ++ fst b, snd a + snd b)
  end.

(** One pass of [for side in ("home", "away")]. *)
Definition load_side (gid : Z) (box : py) (side : string) : attempt (list (action L) * Z) :=
  teams <~ py_get box "teams" PNone ;;
  team_node0 <~ py_get (por teams (PDict [])) side PNone ;;
  let team_node := por team_node0 (PDict []) in
  team_info0 <~ py_get team_node "team" PNone ;;
  team_id <~ py_get (por team_info0 (PDict [])) "id" PNone ;;
  players0 <~ py_get team_node "players" PNone ;;
  match por players0 (PDict []) with
  | PDict nodes => load_nodes gid team_id nodes
  | _ => Err AttributeError
  end.

(** The body of the loop over games for a box score that was fetched;
    [idx] counts the games from 1. *)
Definition load_box (idx : Z) (gid : Z) (box : py) : attempt (list (action L) * Z) :=
  h <~ load_side gid box "home" ;;
  a <~ load_side gid box "away" ;;
  Ok (fst h ++ fst a ++ (if idx mod 25 =? 0 then [Commit] else []), snd h + snd a).

(** [fetch gid] is the decoded box score, or [None] when the request or
    its decoding raised (the game is then skipped). *)
Fixpoint load_games_from (fetch : Z -> option py) (idx : Z) (game_ids : list Z)
  : attempt (list (action L) * Z) :=
  match game_ids with
  | [] => Ok ([Commit], 0)
  | gid :: rest =>
    match fetch gid with
    | None => load_games_from fetch (idx + 1) rest
    | Some box =>
      a <~ load_box idx gid box ;;
      b <~ load_games_from fetch (idx + 1) rest ;;
      Ok (fst a ++ fst b, snd a + snd b)
    end
  end.

(** The calls made, ending with the final commit, and the [total] that is
    printed. *)
Definition load_box_scores (fetch : Z -> option py) (game_ids : list Z)
  : attempt (list (action L) * Z) :=
  load_games_from fetch 1 game_ids.
End Loader.
End BoxScore.

(** ** load_pitcher_game_stats.py *)

Module Pitching.
Record line : Type := mk {
  outs_pitched : Z;
  hits_allowed : Z;
  runs_allowed : Z;
  earned_runs : Z;
  home_runs_allowed : Z;
  walks : Z;
  strikeouts : Z;
  batters_faced : Z;
  pitches : Z;
  strikes : Z;
  decision : py
}.

Section WithInt.
Variable int_of_str : string -> option Z.

Definition ip_str_to_outs (ip_str : py) : Z :=
  if negb (truthy ip_str) then 0
  else
    match ip_str with
    | PStr s =>
      let '(whole, _, frac) := str_partition "." s in
      match int_of_str whole with
      | Some n =>
        let outs := n * 3 in
        if String.eqb frac "1" then outs + 1
        else if String.eqb frac "2" then outs + 2
        else outs
      | None => 0
      end
    | _ => 0
    end.

Definition extract_pitching (node : py) : attempt line :=
  stats <~ py_get node "stats" PNone ;;
  pitch0 <~ py_get (por stats (PDict [])) "pitching" PNone ;;
  let pitch := por pitch0 (PDict []) in
  ip <~ py_get pitch "inningsPitched" PNone ;;
  hits <~ py_get pitch "hits" PNone ;;
  runs <~ py_get pitch "runs" PNone ;;
  earned <~ py_get pitch "earnedRuns" PNone ;;
  home_runs <~ py_get pitch "homeRuns" PNone ;;
  bb <~ py_get pitch "baseOnBalls" PNone ;;
  so <~ py_get pitch "strikeOuts" PNone ;;
  bf <~ py_get pitch "battersFaced" PNone ;;
  thrown <~ py_get pitch "pitchesThrown" PNone ;;
  strikes <~ py_get pitch "strikes" PNone ;;
  node_note <~ py_get node "note" PNone ;;
  pitch_note <~ py_get pitch "note" PNone ;;
  Ok (mk (ip_str_to_outs ip)
         (to_int int_of_str hits) (to_int int_of_str runs) (to_int int_of_str earned)
         (to_int int_of_str home_runs) (to_int int_of_str bb) (to_int int_of_str so)
         (to_int int_of_str bf) (to_int int_of_str thrown) (to_int int_of_str strikes)
         (por (por node_note pitch_note) PNone)).
End WithInt.

Definition any_stats (l : line) : bool :=
  negb ((outs_pitched l =? 0) && (hits_allowed l =? 0) && (runs_allowed l =? 0)
        && (earned_runs l =? 0) && (home_runs_allowed l =? 0) && (walks l =? 0)
        && (strikeouts l =? 0) && (batters_faced l =? 0) && (pitches l =? 0)
        && (strikes l =? 0)).

End Pitching.

(** ** load_player_game_stats.py *)

Module Batting.
Record line : Type := mk {
  at_bats : Z;
  hits : Z;
  runs : Z;
  home_runs : Z;
  rbi : Z;
  walks : Z;
  strikeouts : Z
}.

Definition extract_batting (int_of_str : string -> option Z) (node : py) : attempt line :=
  stats <~ py_get node "stats" PNone ;;
  bat0 <~ py_get (por stats (PDict [])) "batting" PNone ;;
  let bat := por bat0 (PDict []) in
  ab <~ py_get bat "atBats" PNone ;;
  h <~ py_get bat "hits" PNone ;;
  r <~ py_get bat "runs" PNone ;;
  hr <~ py_get bat "homeRuns" PNone ;;
  rbi <~ py_get bat "rbi" PNone ;;
  bb <~ py_get bat "baseOnBalls" PNone ;;
  so <~ py_get bat "strikeOuts" PNone ;;
  Ok (mk (to_int int_of_str ab) (to_int int_of_str h) (to_int int_of_str r)
         (to_int int_of_str hr) (to_int int_of_str rbi) (to_int int_of_str bb)
         (to_int int_of_str so)).

Definition any_batting (l : line) : bool :=
  negb ((at_bats l =? 0) && (hits l =? 0) && (runs l =? 0) && (home_runs l =? 0)
        && (rbi l =? 0) && (walks l =? 0) && (strikeouts l =? 0)).

Definition load_player_game_stats (int_of_str : string -> option Z)
    (fetch : Z -> option py) (game_ids : list Z) : attempt (list (action line) * Z) :=
  load_box_scores (extract_batting int_of_str) any_batting fetch game_ids.
End Batting.

(** A stand-in for [int(s)] on plain str_of_int literals. *)
Definition int_of_decimal (s : string) : option Z :=
  option_map Z.of_int (NilZero.int_of_string s).

(** The innings-pitched notation of a number of outs: whole innings, a
    dot, and the outs of the unfinished inning. *)
Definition innings_notation (outs : Z) : string :=
  (str_of_int (outs / 3) ++ "." ++ str_of_int (outs mod 3))%string.

(** ** SQL: a table with a unique key

    A table is the list of its rows.  [INSERT ... ON CONFLICT (key) DO
    UPDATE SET ...] updates the row that holds the key of the new row
    ([do_update old excluded]) or, when there is none, appends the new
    row; [INSERT OR IGNORE] is the case where the old row is kept.
    Columns are typed as the loaders fill them: integer ids and counters,
    text, and [None] for NULL. *)

Section OnConflict.
Context {R : Type} (conflicts : R -> R -> bool) (do_update : R -> R -> R).

Fixpoint insert_on_conflict (excluded : R) (table : list R) : list R :=
  match table with
  | [] => [excluded]
  | old :: rest =>
    if conflicts old excluded then do_update old excluded :: rest
    else old :: insert_on_conflict excluded rest
  end.
End OnConflict.

(** [COALESCE(a, b)] *)
Definition coalesce {A : Type} (a b : option A) : option A :=
  match a with
  | Some _ => a
  | None => b
  end.

(** ** load_games.py *)

Module Games.
Record row : Type := mk {
  game_id : Z;
  date : string;
  home_team_id : Z;
  away_team_id : Z;
  home_score : option Z;
  away_score : option Z;
  venue : string
}.

Definition same_game (a b : row) : bool := game_id a =? game_id b.

Definition do_update (old excluded : row) : row :=
  mk (game_id old) (date excluded) (home_team_id excluded) (away_team_id excluded)
     (coalesce (home_score excluded) (home_score old))
     (coalesce (away_score excluded) (away_score old))
     (venue excluded).

Definition upsert_game (cur : list row) (pk : Z) (gdate : string) (home_id away_id : Z)
    (home away : option Z) (park : string) : list row :=
  insert_on_conflict same_game do_update
    (mk pk gdate home_id away_id home away park) cur.

(** The row of a game id, if the table has it. *)
Definition lookup (cur : list row) (pk : Z) : option row :=
  find (fun r => game_id r =? pk) cur.

(** [upsert_game] called with the columns of [e]. *)
Definition upsert_row (cur : list row) (e : row) : list row :=
  upsert_game cur (game_id e) (date e) (home_team_id e) (away_team_id e)
              (home_score e) (away_score e) (venue e).

(** The table after a run of calls, as in the loop of
    [load_games_by_range]. *)
Definition upsert_all (cur : list row) (calls : list row) : list row :=
  fold_left upsert_row calls cur.

(** The rows that the dashboard's [load_games] selects:
    [WHERE home_score IS NOT NULL AND away_score IS NOT NULL]. *)
Definition completed (r : row) : bool :=
  match home_score r, away_score r with
  | Some _, Some _ => true
  | _, _ => false
  end.

(** An [upsert_game] call with the arguments that [load_games_by_range]
    gives it. *)
Record upsert_args : Type := mkArgs {
  arg_pk : py;
  arg_gdate : py;
  arg_home_id : py;
  arg_away_id : py;
  arg_home_score : py;
  arg_away_score : py;
  arg_venue : py
}.

(** [for x in o] *)
Definition py_iter (o : py) : attempt (list py) :=
  match o with
  | PList items => Ok items
  | PDict items => Ok (map (fun kv => PStr (fst kv)) items)
  | PStr s => Ok (map (fun c => PStr (String c EmptyString)) (list_ascii_of_string s))
  | _ => Err TypeError
  end.

(** [o[:n]]; a dict refuses the slice (with a [KeyError] instead, from
    Python 3.12 on). *)
Definition py_slice_to (n : nat) (o : py) : attempt py :=
  match o with
  | PStr s => Ok (PStr (str_prefix n s))
  | PList items => Ok (PList (firstn n items))
  | _ => Err TypeError
  end.

(** One entry of a day's [games]: the call made, if any. *)
Definition load_game (g : py) : attempt (list upsert_args) :=
  pk <~ py_get g "gamePk" PNone ;;
  match pk with
  | PNone => Ok []
  | _ =>
    game_date <~ py_get g "gameDate" PNone ;;
    gdate_iso <~ py_slice_to 10 (por game_date (PStr "")) ;;
    teams <~ py_get g "teams" (PDict []) ;;
    home <~ py_get teams "home" (PDict []) ;;
    away <~ py_get teams "away" (PDict []) ;;
    home_team <~ py_get home "team" PNone ;;
    home_id <~ py_get (por home_team (PDict [])) "id" PNone ;;
    away_team <~ py_get away "team" PNone ;;
    away_id <~ py_get (por away_team (PDict [])) "id" PNone ;;
    home_score <~ py_get home "score" PNone ;;
    away_score <~ py_get away "score" PNone ;;
    venue0 <~ py_get g "venue" PNone ;;
    venue <~ py_get (por venue0 (PDict [])) "name" (PStr "") ;;
    if truthy home_id && truthy away_id
    then Ok [mkArgs pk gdate_iso home_id away_id home_score away_score venue]
    else Ok []
  end.

Fixpoint load_day_games (games : list py) : attempt (list upsert_args) :=
  match games with
  | [] => Ok []
  | g :: rest =>
    a <~ load_game g ;;
    b <~ load_day_games rest ;;
    Ok (a ++ b)
  end.

Definition load_day (d : py) : attempt (list upsert_args) :=
  games0 <~ py_get d "games" (PList []) ;;
  games <~ py_iter games0 ;;
  load_day_games games.

Fixpoint load_days (dates : list py) : attempt (list upsert_args) :=
  match dates with
  | [] => Ok []
  | d :: rest =>
    a <~ load_day d ;;
    b <~ load_days rest ;;
    Ok (a ++ b)
  end.

(** The [upsert_game] calls made for a schedule document, in order, and
    the count [n] that is printed; the one commit follows the last call. *)
Definition load_games_by_range (sched : py) : attempt (list upsert_args * Z) :=
  dates0 <~ py_get sched "dates" (PList []) ;;
  dates <~ py_iter dates0 ;;
  calls <~ load_days dates ;;
  Ok (calls, Z.of_nat (length calls)).
End Games.

(** ** load_teams.py *)

Module Teams.
Record row : Type := mk {
  team_id : Z;
  name : string;
  abbreviation : string;
  location : string
}.

Definition same_team (a b : row) : bool := team_id a =? team_id b.

(** [INSERT OR IGNORE INTO teams ...] *)
Definition insert_team (table : list row) (team : row) : list row :=
  insert_on_conflict same_team (fun old _ => old) team table.

Definition lookup (table : list row) (id : Z) : option row :=
  find (fun r => team_id r =? id) table.

(** [for team in teams: insert_team(team)] *)
Definition load_teams (table : list row) (teams : list row) : list row :=
  fold_left insert_team teams table.
End Teams.

(** ** The players table: load_players.py and the box-score loaders *)

Module Players.
Record row : Type := mk {
  player_id : Z;
  name : option string;
  team_id : option Z;
  position : option string;
  birthdate : option string
}.

Definition same_player (a b : row) : bool := player_id a =? player_id b.

(** The statement of [upsert_player]. *)
Definition upsert_player (cur : list row) (pid : Z) (full_name : option string)
    (team : option Z) (pos born : option string) : list row :=
  insert_on_conflict same_player
    (fun old excluded =>
       mk (player_id old) (name excluded) (team_id excluded) (position excluded)
          (coalesce (birthdate excluded) (birthdate old)))
    (mk pid full_name team pos born) cur.

(** The statement of [upsert_min_player]. *)
Definition upsert_min_player (cur : list row) (pid : Z) (full_name : option string)
    (team : option Z) : list row :=
  insert_on_conflict same_player
    (fun old excluded =>
       mk (player_id old) (coalesce (name excluded) (name old))
          (coalesce (team_id excluded) (team_id old)) (position old) (birthdate old))
    (mk pid full_name team None None) cur.

Definition lookup (cur : list row) (pid : Z) : option row :=
  find (fun r => player_id r =? pid) cur.
End Players.

(** ** Notions used in the statements about the loaders *)

(** The value stored under [k], [None] when the key is missing. *)
Definition dict_entry (items : list (string * py)) (k : string) : py :=
  match dict_get items k with
  | Some v => v
  | None => PNone
  end.


(** What is expected of an [upsert_game] call made by
    [load_games_by_range]. *)
Definition sound_upsert (c : Games.upsert_args) : Prop :=
  Games.arg_pk c <> PNone
  /\ truthy (Games.arg_home_id c) = true
  /\ truthy (Games.arg_away_id c) = true
  /\ match Games.arg_gdate c with
     | PStr s => (String.length s <= 10)%nat
     | PList items => (length items <= 10)%nat
     | _ => False
     end.

(** Sample documents. *)
Definition item (k : string) (v : py) : string * py := (k, v).




(** A player who did not pitch. *)
Definition sample_bench : py :=
  PDict [item "person" (PDict [item "id" (PInt 7)]);
         item "stats" (PDict [item "batting" (PDict [])])].



Definition sample_side (team : Z) (score : py) : py :=
  PDict [item "team" (PDict [item "id" (PInt team)]); item "score" score].

(** A final game, an entry without [gamePk], and a game whose away side
    is not known yet. *)
Definition sample_schedule : py :=
  PDict [item "dates"
    (PList [PDict [item "games"
      (PList [PDict [item "gamePk" (PInt 745001);
                     item "gameDate" (PStr "2024-06-01T23:05:00Z");
                     item "teams" (PDict [item "home" (sample_side 119 (PInt 4));
                                          item "away" (sample_side 137 (PInt 2))]);
                     item "venue" (PDict [item "name" (PStr "Dodger Stadium")])];
              PDict [item "gameDate" (PStr "2024-06-01T23:05:00Z")];
              PDict [item "gamePk" (PInt 745002);
                     item "gameDate" (PStr "2024-06-02T20:10:00Z");
                     item "teams" (PDict [item "home" (sample_side 119 PNone);
                                          item "away" (PDict [])])]])]])].

Definition sample_games_table : list Games.row :=
  [Games.mk 745001 "2024-06-01" 119 137 (Some 4) (Some 2) "Dodger Stadium";
   Games.mk 745002 "2024-06-02" 119 137 None None "Dodger Stadium"].

Definition sample_players_table : list Players.row :=
  [Players.mk 660271 (Some "Shohei Ohtani"%string) (Some 119) (Some "DH"%string)
              (Some "1994-07-05"%string)].

Definition sample_teams_table : list Teams.row :=
  [Teams.mk 119 "Los Angeles Dodgers" "LAD" "Los Angeles"].

(** * Properties *)

(** ** The flattener *)

Lemma filter_key_absent {A : Type} (key : A -> Z) (l : list A) (k : Z) :
  ~ In k (map key l) -> filter (fun x => key x =? k) l = [].
Proof.
  induction l as [|y l IH]; intros Hk; [reflexivity|].
  cbn [filter]. destruct (Z.eqb_spec (key y) k) as [E|_].
  - exfalso. apply Hk. left. exact E.
  - apply IH. intro H. apply Hk. right. exact H.
Qed.

Lemma filter_key_unique {A : Type} (key : A -> Z) (l : list A) (g : A) :
  NoDup (map key l) -> In g l -> filter (fun x => key x =? key g) l = [g].
Proof.
  induction l as [|x l IH]; intros Hnd Hin; [contradiction|].
  cbn [map] in Hnd. inversion Hnd as [|? ? Hx Hnd']; subst.
  cbn [filter]. destruct Hin as [->|Hin].
  - rewrite Z.eqb_refl. f_equal. apply filter_key_absent. exact Hx.
  - destruct (Z.eqb_spec (key x) (key g)) as [E|_].
    + exfalso. apply Hx. rewrite E. apply in_map. exact Hin.
    + apply IH; assumption.
Qed.

Lemma filter_map_comm {A B : Type} (f : A -> B) (p : B -> bool) (l : list A) :
  filter p (map f l) = map f (filter (fun x => p (f x)) l).
Proof.
  induction l as [|x l IH]; [reflexivity|].
  cbn [map filter]. destruct (p (f x)); cbn [map]; rewrite IH; reflexivity.
Qed.

Lemma gt_int_spec a b : (gt_int a b = 1 <-> a > b) /\ (a <= b -> gt_int a b = 0).
Proof. unfold gt_int. destruct (Z.ltb_spec b a); split; try split; lia. Qed.

Lemma team_game_view_win games r :
  In r (team_game_view games) ->
  TG.win r = gt_int (TG.runs_for r) (TG.runs_against r).
Proof.
  unfold team_game_view. rewrite in_app_iff, !in_map_iff.
  intros [[g [<- _]]|[g [<- _]]]; reflexivity.
Qed.

(** C4 as stated fails on a drawn game: neither row of the pair wins. *)
Lemma drawn_game_no_winner :
  map TG.game_id (team_game_view [drawn_game]) = [7; 7]
  /\ map TG.is_home (team_game_view [drawn_game]) = [1; 0]
  /\ sumZ (map TG.win (team_game_view [drawn_game])) = 0
  /\ sumZ (map TG.win (team_game_view [drawn_game])) <> 1.
Proof. repeat split. discriminate. Qed.

(** C4 (amended): every completed game yields exactly two rows with its
    game id, the home view ([is_home = 1]) and the away view
    ([is_home = 0]); [win] is 1 exactly when [runs_for > runs_against] and
    0 otherwise, so the two win flags add up to 1 when the scores differ
    and to 0 when the game is drawn. *)
Theorem team_game_view_pair (games : list Game.t) (g : Game.t) :
  NoDup (map Game.game_id games) ->
  In g games ->
  filter (fun r => TG.game_id r =? Game.game_id g) (team_game_view games)
    = [home_view g; away_view g]
  /\ TG.is_home (home_view g) = 1 /\ TG.is_home (away_view g) = 0
  /\ (forall r, In r (team_game_view games) ->
        (TG.win r = 1 <-> TG.runs_for r > TG.runs_against r)
        /\ (TG.runs_for r <= TG.runs_against r -> TG.win r = 0))
  /\ TG.win (home_view g) + TG.win (away_view g)
       = (if Game.home_score g =? Game.away_score g then 0 else 1).
Proof.
  intros Hnd Hin. split; [|split; [reflexivity|split; [reflexivity|split]]].
  - unfold team_game_view. rewrite filter_app, !filter_map_comm.
    cbn [home_view away_view TG.game_id].
    rewrite (filter_key_unique Game.game_id games g Hnd Hin). reflexivity.
  - intros r Hr. rewrite (team_game_view_win games r Hr). apply gt_int_spec.
  - cbn [home_view away_view TG.win]. unfold gt_int.
    destruct (Z.ltb_spec (Game.away_score g) (Game.home_score g));
      destruct (Z.ltb_spec (Game.home_score g) (Game.away_score g));
      destruct (Z.eqb_spec (Game.home_score g) (Game.away_score g)); lia.
Qed.

Lemma team_game_view_pair_witness :
  filter (fun r => TG.game_id r =? 3) (team_game_view five_games)
    = [home_view (Game.mk 3 3 1 2 2 3); away_view (Game.mk 3 3 1 2 2 3)]
  /\ TG.win (home_view (Game.mk 3 3 1 2 2 3))
     + TG.win (away_view (Game.mk 3 3 1 2 2 3)) = 1.
Proof.
  assert (Hnd : NoDup (map Game.game_id five_games)).
  { vm_compute. repeat constructor; cbn; intuition discriminate. }
  assert (Hin : In (Game.mk 3 3 1 2 2 3) five_games).
  { vm_compute. right. right. left. reflexivity. }
  destruct (team_game_view_pair five_games (Game.mk 3 3 1 2 2 3) Hnd Hin)
    as [H1 [_ [_ [_ H2]]]].
  split; [exact H1 | exact H2].
Defined.

(** ** The dataset builder *)

Lemma in_merge_left {L R V : Type} (on : L -> R -> bool) (val : R -> option V)
    (left : list L) (right : list R) (l : L) (v : V) :
  In (l, Some v) (merge_left on val left right) ->
  In l left /\ exists r, In r right /\ on l r = true /\ val r = Some v.
Proof.
  unfold merge_left. rewrite in_flat_map. intros [l' [Hl' Hrow]].
  unfold merge_row in Hrow.
  destruct (filter (on l') right) as [|m ms] eqn:E.
  - destruct Hrow as [Heq|[]]. discriminate.
  - rewrite <- E in Hrow. apply in_map_iff in Hrow.
    destruct Hrow as [r [Heq Hr]]. inversion Heq; subst.
    apply filter_In in Hr. destruct Hr as [Hr Hon].
    split; [assumption|]. exists r. auto.
Qed.

Lemma in_side_frame (tg : list (TG.t * option Q)) (side : Z) (s : SideRow) :
  In s (map side_row (filter (fun x => TG.is_home (fst x) =? side) tg)) ->
  exists x, In x tg /\ TG.is_home (fst x) = side /\ side_row x = s.
Proof.
  rewrite in_map_iff. intros [x [Hs Hx]]. apply filter_In in Hx.
  destruct Hx as [Hx Hside]. exists x. repeat split; [assumption | lia | assumption].
Qed.

(** C5: every row of the dataset carries a home and an away rolling form,
    each the one its side held before the join, and [r10_diff] is the home
    value minus the away value, computed with 0.5 put in place of an
    absent value. *)
Theorem build_home_win_dataset_rows (TEAM_GAMES : list TG.t) (games : list Game.t)
    (r : DS.t) :
  In r (build_home_win_dataset TEAM_GAMES games) ->
  exists h a,
    DS.home_r10 r = Some h /\ DS.away_r10 r = Some a
    /\ form_before_join TEAM_GAMES 1 (DS.game_id r) (DS.date r) (DS.home_team_id r) h
    /\ form_before_join TEAM_GAMES 0 (DS.game_id r) (DS.date r) (DS.away_team_id r) a
    /\ DS.r10_diff r
       = Qminus (fillna half (DS.home_r10 r)) (fillna half (DS.away_r10 r))
    /\ DS.r10_diff r = Qminus h a.
Proof.
  unfold build_home_win_dataset, dropna_r10. intros Hr.
  apply filter_In in Hr. destruct Hr as [Hr Hpresent].
  apply in_map_iff in Hr. destruct Hr as [[[g oh] oa] [<- Hm]].
  cbn [derive fst snd DS.home_r10 DS.away_r10 DS.game_id DS.date
       DS.home_team_id DS.away_team_id DS.r10_diff] in *.
  destruct oh as [h|]; [|discriminate]. destruct oa as [a|]; [|discriminate].
  exists h, a.
  apply in_merge_left in Hm. destruct Hm as [Hm [sa [Hsa [Hona Hva]]]].
  apply in_merge_left in Hm. destruct Hm as [_ [sh [Hsh [Honh Hvh]]]].
  apply in_side_frame in Hsh. destruct Hsh as [xh [Hxh [Hhome <-]]].
  apply in_side_frame in Hsa. destruct Hsa as [xa [Hxa [Haway <-]]].
  unfold on_home, on_away, side_row in *.
  cbn [fst snd side_game_id side_date side_team_id side_r10] in *.
  apply andb_true_iff in Honh. destruct Honh as [Honh Ht1].
  apply andb_true_iff in Honh. destruct Honh as [Hg1 Hd1].
  apply andb_true_iff in Hona. destruct Hona as [Hona Ht2].
  apply andb_true_iff in Hona. destruct Hona as [Hg2 Hd2].
  apply Z.eqb_eq in Ht1, Hg1, Hd1, Ht2, Hg2, Hd2.
  repeat split.
  - exists xh. repeat split; auto.
  - exists xa. repeat split; auto.
Qed.

(** ** Rolling windows *)

Lemma floor_le_window (W : Z) : 1 <= W -> 1 <= Z.max 1 (W / 2) <= W.
Proof. intros HW. split; [lia|]. apply Z.max_lub; [lia|]. Z.div_mod_to_equations. lia. Qed.

Lemma rolling_accepts (s : list Z) (W : Z) :
  1 <= W -> rolling s W (Z.max 1 (W / 2)) = Return (mkRolling s W (Z.max 1 (W / 2))).
Proof.
  intros HW. pose proof (floor_le_window W HW) as Hf. unfold rolling.
  destruct (Z.ltb_spec (Z.max 1 (W / 2)) 0); [lia|].
  destruct (Z.ltb_spec W (Z.max 1 (W / 2))); [lia|].
  destruct (Z.ltb_spec W 0); [lia|]. reflexivity.
Qed.

Lemma rolling_rejects (s : list Z) (W : Z) :
  W < 1 ->
  rolling s W (Z.max 1 (W / 2)) = Raise (ValueError "min_periods must be <= window").
Proof.
  intros HW. unfold rolling.
  destruct (Z.ltb_spec (Z.max 1 (W / 2)) 0); [lia|].
  destruct (Z.ltb_spec W (Z.max 1 (W / 2))); [reflexivity | lia].
Qed.

Lemma rolling_10_5 (s : list Z) : rolling s 10 5 = Return (mkRolling s 10 5).
Proof. reflexivity. Qed.

Lemma length_mean (r : Rolling) : length (mean r) = length (obj r).
Proof. unfold mean. rewrite length_map, length_seq. reflexivity. Qed.

Lemma nth_error_mean (r : Rolling) (i : nat) :
  (i < length (obj r))%nat -> nth_error (mean r) i = Some (mean_at r i).
Proof.
  intros Hi. unfold mean. rewrite nth_error_map, nth_error_seq.
  destruct (Nat.ltb_spec i (length (obj r))); [reflexivity | lia].
Qed.

Lemma window_start_le (W : Z) (i : nat) : 1 <= W -> (window_start W i <= i)%nat.
Proof. unfold window_start. lia. Qed.

Lemma length_window_at (s : list Z) (W : Z) (i : nat) :
  0 <= W -> (i < length s)%nat ->
  Z.of_nat (length (window_at s W i)) = Z.min (Z.of_nat i + 1) W.
Proof.
  intros HW Hi. unfold window_at, window_start.
  rewrite length_skipn, length_firstn. lia.
Qed.

Lemma nth_error_window_at (s : list Z) (W : Z) (i k : nat) :
  (i < length s)%nat -> (k < length (window_at s W i))%nat ->
  nth_error (window_at s W i) k
  = nth_error s (i + 1 - length (window_at s W i) + k).
Proof.
  intros Hi Hk. unfold window_at in *.
  rewrite length_skipn, length_firstn in *.
  rewrite nth_error_skipn, nth_error_firstn.
  destruct (Nat.ltb_spec (window_start W i + k) (S i)); [|lia].
  f_equal. lia.
Qed.

(** The window that ends at row [i] is made of up to [W - 1] earlier rows
    followed by row [i] itself. *)
Lemma window_at_current (s : list Z) (W : Z) (i : nat) (x : Z) :
  1 <= W -> nth_error s i = Some x ->
  window_at s W i = skipn (window_start W i) (firstn i s) ++ [x].
Proof.
  intros HW Hx. unfold window_at.
  assert (Hi : (i < length s)%nat) by (apply nth_error_Some; congruence).
  assert (Hsplit : firstn (S i) s = firstn i s ++ [x]).
  { clear HW. revert i Hx Hi. induction s as [|y s IH]; intros i Hx Hi; [cbn in Hi; lia|].
    destruct i as [|i].
    - cbn in Hx. inversion Hx. reflexivity.
    - change (firstn (S (S i)) (y :: s)) with (y :: firstn (S i) s).
      change (firstn (S i) (y :: s)) with (y :: firstn i s).
      cbn in Hx, Hi. rewrite (IH i Hx) by lia. reflexivity. }
  rewrite Hsplit, skipn_app.
  pose proof (window_start_le W i HW) as Hle.
  rewrite length_firstn.
  replace (window_start W i - Nat.min i (length s))%nat with 0%nat by lia.
  reflexivity.
Qed.

Lemma winpct_accepts (t : list TG.t) (W : Z) :
  1 <= W ->
  winpct t W = Return (mean (mkRolling (map TG.win t) W (Z.max 1 (W / 2)))).
Proof. intros HW. unfold winpct. rewrite rolling_accepts by assumption. reflexivity. Qed.

(** The value at a row of the rolled frame, when the window is valid. *)
Lemma mean_at_cases (s : list Z) (W : Z) (i : nat) :
  1 <= W -> (i < length s)%nat ->
  let w := window_at s W i in
  mean_at (mkRolling s W (Z.max 1 (W / 2))) i
  = if Z.of_nat i + 1 <? Z.max 1 (W / 2) then None
    else Some (Qmake (sumZ w) (Z.to_pos (Z.of_nat (length w)))).
Proof.
  intros HW Hi w. unfold mean_at. cbn [obj window min_periods]. fold w.
  pose proof (floor_le_window W HW) as Hf.
  pose proof (length_window_at s W i ltac:(lia) Hi) as Hlen. fold w in Hlen.
  destruct (Z.ltb_spec (Z.of_nat i + 1) (Z.max 1 (W / 2))).
  - destruct (Z.leb_spec (Z.max 1 (W / 2)) (Z.of_nat (length w))); [lia | reflexivity].
  - destruct (Z.leb_spec (Z.max 1 (W / 2)) (Z.of_nat (length w))); [|lia].
    destruct (Z.ltb_spec 0 (Z.of_nat (length w))); [reflexivity | lia].
Qed.

(** ** Sorting *)

Section StableSortFacts.
Context {A : Type} (leb : A -> A -> bool).
Hypothesis leb_total : forall a b, leb a b = false -> leb b a = true.
Hypothesis leb_trans : forall a b c, leb a b = true -> leb b c = true -> leb a c = true.

Let le (a b : A) : Prop := leb a b = true.

Lemma insert_sorted_perm (x : A) (l : list A) :
  Permutation (x :: l) (insert_sorted leb x l).
Proof.
  induction l as [|y l IH]; [reflexivity|].
  cbn [insert_sorted]. destruct (leb x y); [reflexivity|].
  rewrite perm_swap. apply perm_skip. exact IH.
Qed.

Lemma stable_sort_perm (l : list A) : Permutation l (stable_sort leb l).
Proof.
  induction l as [|x l IH]; [reflexivity|].
  cbn [stable_sort fold_right]. fold (stable_sort leb l).
  rewrite <- insert_sorted_perm. apply perm_skip. exact IH.
Qed.

Lemma insert_sorted_sorted (x : A) (l : list A) :
  StronglySorted le l -> StronglySorted le (insert_sorted leb x l).
Proof using leb_total leb_trans.
  induction l as [|y l IH]; intros Hs.
  - repeat constructor.
  - cbn [insert_sorted]. inversion Hs as [|? ? Hs' Hy]; subst.
    destruct (leb x y) eqn:E.
    + constructor; [assumption|]. constructor; [exact E|].
      eapply Forall_impl; [|exact Hy]. intros b Hb. exact (leb_trans x y b E Hb).
    + constructor; [apply IH; assumption|].
      eapply Permutation_Forall; [apply insert_sorted_perm|].
      constructor; [exact (leb_total x y E) | exact Hy].
Qed.

Lemma stable_sort_sorted (l : list A) : StronglySorted le (stable_sort leb l).
Proof using leb_total leb_trans.
  induction l as [|x l IH]; [constructor|].
  cbn [stable_sort fold_right]. apply insert_sorted_sorted. exact IH.
Qed.
End StableSortFacts.

Lemma sort_by_date_sorts : date_sort sort_by_date.
Proof.
  split; intros l.
  - apply stable_sort_perm.
  - unfold sort_by_date.
    assert (H : StronglySorted (fun a b => date_leb a b = true)
                               (stable_sort date_leb l))
      by (apply stable_sort_sorted; unfold date_leb; intros; lia).
    induction H as [|a l' _ IH Hall]; constructor; [exact IH|].
    eapply Forall_impl; [|exact Hall].
    intros b Hb. apply Z.leb_le. exact Hb.
Qed.

Lemma map_fst_combine {A B : Type} (l : list A) (l' : list B) :
  length l = length l' -> map fst (combine l l') = l.
Proof.
  revert l'. induction l as [|x l IH]; intros [|y l'] Hlen; try discriminate; [reflexivity|].
  cbn. f_equal. apply IH. cbn in Hlen. lia.
Qed.

Lemma nth_error_combine {A B : Type} (l : list A) (l' : list B) (i : nat) (a : A) (b : B) :
  nth_error (combine l l') i = Some (a, b) ->
  nth_error l i = Some a /\ nth_error l' i = Some b.
Proof.
  revert l' i. induction l as [|x l IH]; intros [|y l'] [|i] H; try discriminate.
  - cbn in H. inversion H. split; reflexivity.
  - cbn in H. apply IH in H. exact H.
Qed.

(** ** The rolling-form calculator *)

(** C2: for a window [W >= 1], the team's rows come back in ascending
    date order, each with the mean of the win flag over the trailing [W]
    rows up to and including itself; the value is absent exactly at the
    rows that have fewer than [max 1 (W / 2)] rows up to and including
    themselves. *)
Theorem rolling_win_pct_spec (sort_values : list TG.t -> list TG.t)
    (df : list TG.t) (team_id W : Z) :
  date_sort sort_values ->
  1 <= W ->
  exists t,
    rolling_win_pct sort_values df team_id W = Return t
    /\ Permutation (filter (fun r => TG.team_id r =? team_id) df) (map fst t)
    /\ StronglySorted date_le (map fst t)
    /\ forall i r v, nth_error t i = Some (r, v) ->
         (v = None <-> Z.of_nat i + 1 < Z.max 1 (W / 2))
         /\ forall q, v = Some q ->
              exists w,
                Z.of_nat (length w) = Z.min (Z.of_nat i + 1) W
                /\ (forall k, (k < length w)%nat ->
                      nth_error w k
                      = nth_error (map TG.win (map fst t)) (i + 1 - length w + k))
                /\ q = Qmake (sumZ w) (Z.to_pos (Z.of_nat (length w))).
Proof.
  intros [Hperm Hsorted] HW. unfold rolling_win_pct.
  set (t := sort_values (filter (fun r => TG.team_id r =? team_id) df)).
  rewrite winpct_accepts by assumption. cbn [bind].
  set (R := mkRolling (map TG.win t) W (Z.max 1 (W / 2))).
  assert (Hlen : length t = length (mean R)).
  { rewrite length_mean. unfold R. cbn [obj]. rewrite length_map. reflexivity. }
  exists (combine t (mean R)). rewrite map_fst_combine by assumption.
  split; [reflexivity|]. split; [apply Hperm|]. split; [apply Hsorted|].
  intros i r v Hnth. apply nth_error_combine in Hnth. destruct Hnth as [Hr Hv].
  assert (Hi : (i < length (map TG.win t))%nat).
  { rewrite length_map. apply nth_error_Some. congruence. }
  rewrite nth_error_mean in Hv by exact Hi. inversion Hv as [Hv']. clear Hv.
  unfold R. rewrite (mean_at_cases (map TG.win t) W i HW Hi).
  destruct (Z.ltb_spec (Z.of_nat i + 1) (Z.max 1 (W / 2))) as [Hlt|Hge].
  - split; [tauto|]. intros q Hq. discriminate.
  - split; [split; [discriminate | lia]|].
    intros q Hq. inversion Hq; subst q.
    exists (window_at (map TG.win t) W i). split; [|split].
    + apply length_window_at; [lia | exact Hi].
    + intros k Hk. apply nth_error_window_at; assumption.
    + reflexivity.
Qed.

Lemma rolling_win_pct_spec_witness :
  exists t,
    rolling_win_pct sort_by_date (team_game_view five_games) 1 4 = Return t
    /\ Permutation (filter (fun r => TG.team_id r =? 1) (team_game_view five_games))
                   (map fst t)
    /\ StronglySorted date_le (map fst t)
    /\ forall i r v, nth_error t i = Some (r, v) ->
         (v = None <-> Z.of_nat i + 1 < Z.max 1 (4 / 2))
         /\ forall q, v = Some q ->
              exists w,
                Z.of_nat (length w) = Z.min (Z.of_nat i + 1) 4
                /\ (forall k, (k < length w)%nat ->
                      nth_error w k
                      = nth_error (map TG.win (map fst t)) (i + 1 - length w + k))
                /\ q = Qmake (sumZ w) (Z.to_pos (Z.of_nat (length w))).
Proof.
  apply (rolling_win_pct_spec sort_by_date (team_game_view five_games) 1 4).
  - exact sort_by_date_sorts.
  - lia.
Defined.

(** C8: a window below 1 is refused with a [ValueError] when the rolling
    object is built, before any mean is computed, whatever the frame
    holds. *)
Theorem rolling_win_pct_rejects (sort_values : list TG.t -> list TG.t)
    (df : list TG.t) (team_id W : Z) :
  W < 1 ->
  (forall s, rolling s W (Z.max 1 (W / 2))
             = Raise (ValueError "min_periods must be <= window"))
  /\ rolling_win_pct sort_values df team_id W
     = Raise (ValueError "min_periods must be <= window")
  /\ (forall F Model fit predict_proba coef_ roc_auc_score GAMES ABBR_BY_ID start end_,
        render_tab F Model fit predict_proba coef_ roc_auc_score sort_values GAMES
                   ABBR_BY_ID "tab-trend" team_id W start end_
        = ([], Raise (ValueError "min_periods must be <= window"))).
Proof.
  intros HW.
  assert (Hroll : forall l, rolling_win_pct sort_values l team_id W
                            = Raise (ValueError "min_periods must be <= window")).
  { intros l. unfold rolling_win_pct, winpct.
    rewrite rolling_rejects by exact HW. reflexivity. }
  split; [|split].
  - intros s. apply rolling_rejects. exact HW.
  - apply Hroll.
  - intros. unfold render_tab.
    change (String.eqb "tab-trend" "tab-trend") with true. cbv iota.
    unfold trend_tab. rewrite Hroll. reflexivity.
Qed.

Lemma rolling_win_pct_rejects_witness :
  (forall s, rolling s 0 (Z.max 1 (0 / 2))
             = Raise (ValueError "min_periods must be <= window"))
  /\ rolling_win_pct sort_by_date (team_game_view five_games) 1 0
     = Raise (ValueError "min_periods must be <= window")
  /\ (forall F Model fit predict_proba coef_ roc_auc_score GAMES ABBR_BY_ID start end_,
        render_tab F Model fit predict_proba coef_ roc_auc_score sort_by_date GAMES
                   ABBR_BY_ID "tab-trend" 1 0 start end_
        = ([], Raise (ValueError "min_periods must be <= window"))).
Proof.
  apply (rolling_win_pct_rejects sort_by_date (team_game_view five_games) 1 0). lia.
Defined.

Lemma sumZ_app (l l' : list Z) : sumZ (l ++ l') = sumZ l + sumZ l'.
Proof.
  induction l as [|x l IH]; [reflexivity|].
  change (sumZ ((x :: l) ++ l')) with (x + sumZ (l ++ l')).
  change (sumZ (x :: l)) with (x + sumZ l). lia.
Qed.

(** C3 as stated fails: after four losses, the fifth row of a team (four
    prior rows, one fewer than the floor 5 of a window of 10) has a
    rolling form, and it counts that day's win. *)
Lemma winpct_counts_current_game :
  map TG.win (map home_view five_games) = [0; 0; 0; 0; 1]
  /\ winpct (map home_view five_games) 10
     = Return [None; None; None; None; Some (Qmake 1 5)].
Proof. split; reflexivity. Qed.

(** C3 (amended): the rolling form of a row is the mean over the row
    itself and up to [W - 1] rows before it, so the current game's own
    outcome is counted; it is absent while the prior rows number fewer
    than the floor minus one, and defined from exactly floor - 1 prior
    rows on. *)
Theorem winpct_includes_current (t : list TG.t) (W : Z) :
  1 <= W ->
  exists s,
    winpct t W = Return s
    /\ length s = length t
    /\ forall i r, nth_error t i = Some r ->
         (Z.of_nat i < Z.max 1 (W / 2) - 1 -> nth_error s i = Some None)
         /\ (Z.max 1 (W / 2) - 1 <= Z.of_nat i ->
             exists prior,
               Z.of_nat (length prior) = Z.min (Z.of_nat i) (W - 1)
               /\ (forall k, (k < length prior)%nat ->
                     nth_error prior k
                     = nth_error (map TG.win t) (i - length prior + k))
               /\ nth_error s i
                  = Some (Some (Qmake (sumZ prior + TG.win r)
                                      (Z.to_pos (Z.of_nat (length prior) + 1))))).
Proof.
  intros HW. rewrite winpct_accepts by assumption.
  set (R := mkRolling (map TG.win t) W (Z.max 1 (W / 2))).
  exists (mean R). split; [reflexivity|]. split.
  { rewrite length_mean. unfold R. cbn [obj]. apply length_map. }
  intros i r Hr.
  assert (Hi : (i < length (map TG.win t))%nat).
  { rewrite length_map. apply nth_error_Some. congruence. }
  assert (Hx : nth_error (map TG.win t) i = Some (TG.win r)).
  { rewrite nth_error_map, Hr. reflexivity. }
  rewrite nth_error_mean by exact Hi.
  unfold R. rewrite (mean_at_cases (map TG.win t) W i HW Hi).
  rewrite (window_at_current (map TG.win t) W i (TG.win r) HW Hx).
  set (prior := skipn (window_start W i) (firstn i (map TG.win t))).
  pose proof (window_start_le W i HW) as Hle.
  assert (Hlp : length prior = (i - window_start W i)%nat).
  { unfold prior. rewrite length_skipn, length_firstn. lia. }
  split.
  - intros Hlt. destruct (Z.ltb_spec (Z.of_nat i + 1) (Z.max 1 (W / 2))); [reflexivity | lia].
  - intros Hge. destruct (Z.ltb_spec (Z.of_nat i + 1) (Z.max 1 (W / 2))); [lia|].
    exists prior. split; [|split].
    + rewrite Hlp. unfold window_start. lia.
    + intros k Hk. rewrite Hlp in *. unfold prior.
      rewrite nth_error_skipn, nth_error_firstn.
      destruct (Nat.ltb_spec (window_start W i + k) i); [|lia].
      f_equal. lia.
    + rewrite sumZ_app, length_app. cbn [sumZ fold_right length].
      do 3 f_equal; lia.
Qed.

Lemma winpct_includes_current_witness :
  exists s,
    winpct (map home_view five_games) 10 = Return s
    /\ length s = length (map home_view five_games)
    /\ forall i r, nth_error (map home_view five_games) i = Some r ->
         (Z.of_nat i < Z.max 1 (10 / 2) - 1 -> nth_error s i = Some None)
         /\ (Z.max 1 (10 / 2) - 1 <= Z.of_nat i ->
             exists prior,
               Z.of_nat (length prior) = Z.min (Z.of_nat i) (10 - 1)
               /\ (forall k, (k < length prior)%nat ->
                     nth_error prior k
                     = nth_error (map TG.win (map home_view five_games))
                                 (i - length prior + k))
               /\ nth_error s i
                  = Some (Some (Qmake (sumZ prior + TG.win r)
                                      (Z.to_pos (Z.of_nat (length prior) + 1))))).
Proof.
  apply (winpct_includes_current (map home_view five_games) 10). lia.
Defined.

(** ** Replacing one outcome *)

Section ReplaceAt.
Context {A : Type} (f : A -> A).

Lemma length_replace_at (j : nat) (l : list A) :
  length (replace_at f j l) = length l.
Proof.
  revert j. induction l as [|x l IH]; intros [|j]; cbn; try reflexivity.
  rewrite IH. reflexivity.
Qed.

Lemma firstn_replace_at (n j : nat) (l : list A) :
  firstn n (replace_at f j l) = replace_at f j (firstn n l).
Proof.
  revert n j. induction l as [|x l IH]; intros [|n] [|j]; cbn; try reflexivity.
  rewrite IH. reflexivity.
Qed.

Lemma skipn_replace_at (n j : nat) (l : list A) :
  (n <= j)%nat -> skipn n (replace_at f j l) = replace_at f (j - n) (skipn n l).
Proof.
  revert n j. induction l as [|x l IH]; intros n j H.
  - cbn [replace_at]. rewrite skipn_nil. reflexivity.
  - destruct n as [|n]; [rewrite Nat.sub_0_r; reflexivity|].
    destruct j as [|j]; [lia|].
    cbn [replace_at skipn Nat.sub]. apply IH. lia.
Qed.

Lemma map_replace_at {B : Type} (g : A -> B) (f' : B -> B) (j : nat) (l : list A) :
  (forall x, g (f x) = f' (g x)) ->
  map g (replace_at f j l) = replace_at f' j (map g l).
Proof.
  intros Hfg. revert j. induction l as [|x l IH]; intros [|j]; cbn; try reflexivity.
  - rewrite Hfg. reflexivity.
  - rewrite IH. reflexivity.
Qed.
End ReplaceAt.

Lemma sumZ_replace_at (v : Z) (k : nat) (l : list Z) (x : Z) :
  nth_error l k = Some x -> sumZ (replace_at (fun _ => v) k l) = sumZ l - x + v.
Proof.
  revert k. induction l as [|y l IH]; intros [|k] H; try discriminate.
  - cbn in H. inversion H; subst. cbn. lia.
  - cbn in H. change (sumZ (replace_at (fun _ => v) (S k) (y :: l)))
      with (y + sumZ (replace_at (fun _ => v) k l)).
    rewrite (IH k H). change (sumZ (y :: l)) with (y + sumZ l). lia.
Qed.

Lemma window_at_replace (v : Z) (s : list Z) (W : Z) (i j : nat) :
  (window_start W i <= j)%nat ->
  window_at (replace_at (fun _ => v) j s) W i
  = replace_at (fun _ => v) (j - window_start W i) (window_at s W i).
Proof.
  intros Hj. unfold window_at. rewrite firstn_replace_at, skipn_replace_at by exact Hj.
  reflexivity.
Qed.

(** C9: where the rolling form of row [i] is defined, turning a loss at a
    row [j] of its trailing window into a win, all other rows unchanged,
    does not lower it: the value gains one win over the same count. *)
Theorem winpct_monotone (t : list TG.t) (W : Z) (i j : nat) (r : TG.t)
    (s : list (option Q)) (p : Q) :
  nth_error t j = Some r ->
  TG.win r = 0 ->
  Z.of_nat i - W < Z.of_nat j ->
  (j <= i)%nat ->
  winpct t W = Return s ->
  nth_error s i = Some (Some p) ->
  exists s' p',
    winpct (replace_at (fun x => set_win x 1) j t) W = Return s'
    /\ nth_error s' i = Some (Some p')
    /\ p' = Qmake (Qnum p + 1) (Qden p)
    /\ Qle p p'.
Proof.
  intros Hr Hloss Hin Hji Hs Hp.
  destruct (Z.le_gt_cases 1 W) as [HW|HW].
  2:{ unfold winpct in Hs. rewrite rolling_rejects in Hs by lia. discriminate. }
  rewrite winpct_accepts in Hs by exact HW. inversion Hs; subst s. clear Hs.
  assert (Hi : (i < length (map TG.win t))%nat).
  { pose proof (length_mean (mkRolling (map TG.win t) W (Z.max 1 (W / 2)))) as Hl.
    cbn [obj] in Hl. rewrite <- Hl. apply nth_error_Some. congruence. }
  rewrite nth_error_mean in Hp by exact Hi.
  rewrite (mean_at_cases (map TG.win t) W i HW Hi) in Hp.
  rewrite winpct_accepts by exact HW.
  rewrite (map_replace_at (fun x => set_win x 1) TG.win (fun _ => 1)) by reflexivity.
  set (wins := map TG.win t) in *.
  set (R' := mkRolling (replace_at (fun _ => 1) j wins) W (Z.max 1 (W / 2))).
  assert (Hi' : (i < length (replace_at (fun _ => 1%Z) j wins))%nat).
  { rewrite length_replace_at. exact Hi. }
  assert (Hstart : (window_start W i <= j)%nat) by (unfold window_start; lia).
  assert (Hwj : nth_error (window_at wins W i) (j - window_start W i) = Some 0).
  { unfold window_at. rewrite nth_error_skipn, nth_error_firstn.
    destruct (Nat.ltb_spec (window_start W i + (j - window_start W i)) (S i)); [|lia].
    replace (window_start W i + (j - window_start W i))%nat with j by lia.
    unfold wins. rewrite nth_error_map, Hr. cbn. rewrite Hloss. reflexivity. }
  exists (mean R'). eexists. split; [reflexivity|].
  rewrite nth_error_mean by exact Hi'. unfold R'.
  rewrite (mean_at_cases _ W i HW Hi').
  destruct (Z.ltb_spec (Z.of_nat i + 1) (Z.max 1 (W / 2))); [discriminate|].
  inversion Hp; subst p. clear Hp.
  rewrite window_at_replace by exact Hstart.
  rewrite length_replace_at, (sumZ_replace_at 1 _ _ 0 Hwj).
  split; [reflexivity|]. cbn [Qnum Qden]. split.
  - f_equal. lia.
  - unfold Qle. cbn [Qnum Qden]. nia.
Qed.

Lemma winpct_monotone_witness :
  exists s' p',
    winpct (replace_at (fun x => set_win x 1) 2 (map home_view five_games)) 10 = Return s'
    /\ nth_error s' 4 = Some (Some p')
    /\ p' = Qmake (Qnum (Qmake 1 5) + 1) (Qden (Qmake 1 5))
    /\ Qle (Qmake 1 5) p'.
Proof.
  apply (winpct_monotone (map home_view five_games) 10 4 2
           (home_view (Game.mk 3 3 1 2 2 3))
           [None; None; None; None; Some (Qmake 1 5)] (Qmake 1 5)).
  - reflexivity.
  - reflexivity.
  - lia.
  - lia.
  - reflexivity.
  - reflexivity.
Defined.

(** ** The split index *)

Lemma rne_close (a s : Z) :
  0 <= s -> 0 <= a -> 2 * Z.abs (Float64.rne a s * 2 ^ s - a) <= 2 ^ s.
Proof.
  intros Hs Ha. unfold Float64.rne.
  assert (HD : 0 < 2 ^ s) by (apply Z.pow_pos_nonneg; lia).
  pose proof (Z.div_mod a (2 ^ s) ltac:(lia)) as Hdm.
  pose proof (Z.mod_pos_bound a (2 ^ s) HD) as Hr.
  set (q := a / 2 ^ s) in *. set (r := a mod 2 ^ s) in *. set (D := 2 ^ s) in *.
  destruct (Z.ltb_spec (2 * r) D); [nia|].
  destruct (Z.ltb_spec D (2 * r)); [nia|].
  destruct (Z.even q); nia.
Qed.

(** Any integer within half a unit in the last place of [n * 0.8]
    truncates to the floor of [4 n / 5]: the double [0.8] exceeds 4/5 by
    a factor [1 + 2^-54] only. *)
Lemma near_four_fifths (n q s : Z) :
  0 <= n < 2 ^ 50 -> 0 <= s <= 49 ->
  2 * Z.abs (q * 2 ^ s - n * 3602879701896397) <= 2 ^ s ->
  q / 2 ^ (52 - s) = 4 * n / 5.
Proof.
  intros Hn Hs Hq.
  assert (HD : 0 < 2 ^ s) by (apply Z.pow_pos_nonneg; lia).
  assert (HE : 0 < 2 ^ (52 - s)) by (apply Z.pow_pos_nonneg; lia).
  assert (HP : 2 ^ s * 2 ^ (52 - s) = 4503599627370496).
  { rewrite <- Z.pow_add_r by lia. replace (s + (52 - s)) with 52 by lia. reflexivity. }
  assert (HE8 : 8 <= 2 ^ (52 - s)).
  { change 8 with (2 ^ 3). apply Z.pow_le_mono_r; lia. }
  assert (Hn' : n < 1125899906842624)
    by (change (2 ^ 50) with 1125899906842624 in Hn; lia).
  set (D := 2 ^ s) in *. set (E := 2 ^ (52 - s)) in *.
  pose proof (Z.div_mod (4 * n) 5 ltac:(lia)) as Hk.
  pose proof (Z.mod_pos_bound (4 * n) 5 ltac:(lia)) as Hrho.
  set (k := 4 * n / 5) in *. set (rho := (4 * n) mod 5) in *.
  symmetry. apply Z.div_unique with (r := q - k * E); [|lia].
  left. split.
  - assert (k * E * D <= q * D + D - 1) by nia. nia.
  - assert (q * D < (k + 1) * E * D) by nia. nia.
Qed.

Lemma of_int_exact (n : Z) : n < 2 ^ 53 -> Float64.of_int n = (n, 0).
Proof.
  intros Hn. unfold Float64.of_int, Float64.round.
  destruct (Z.ltb_spec n (2 ^ 53)); [reflexivity | lia].
Qed.

(** [int(n * 0.8)] is the floor of [0.8 n] for every length a frame can
    have. *)
Lemma split_index_floor (n : Z) : 0 <= n < 2 ^ 50 -> split_index n = 4 * n / 5.
Proof.
  intros Hn.
  assert (Hn' : n < 1125899906842624)
    by (change (2 ^ 50) with 1125899906842624 in Hn; lia).
  unfold split_index.
  rewrite of_int_exact by (change (2 ^ 53) with 9007199254740992; lia).
  unfold Float64.mul, Float64.c0_8. cbn [fst snd].
  unfold Float64.round.
  change (2 ^ 53) with 9007199254740992.
  destruct (Z.ltb_spec (n * 3602879701896397) 9007199254740992) as [Hsmall|Hbig].
  - unfold Float64.to_int. cbn [fst snd].
    change (0 <=? 0 + -52) with false. cbv iota.
    change (- (0 + -52)) with (52 - 0).
    apply near_four_fifths; [lia | lia |].
    change (2 ^ 0) with 1. lia.
  - set (a := n * 3602879701896397) in *.
    assert (Hlo : 53 <= Z.log2 a).
    { apply Z.log2_le_pow2; [lia|]. change (2 ^ 53) with 9007199254740992. lia. }
    assert (Hhi : Z.log2 a < 102).
    { apply Z.log2_lt_pow2; [lia|].
      change (2 ^ 102) with (1125899906842624 * 4503599627370496). unfold a. nia. }
    set (s := Z.log2 a - 52) in *.
    unfold Float64.to_int. cbn [fst snd].
    destruct (Z.leb_spec 0 (0 + -52 + s)) as [|_]; [lia|].
    replace (- (0 + -52 + s)) with (52 - s) by lia.
    apply near_four_fifths; [lia | lia |].
    apply rne_close; lia.
Qed.

Example split_index_samples :
  map split_index [0; 1; 4; 5; 49; 50; 56; 99; 100; 101] = [0; 0; 3; 4; 39; 40; 44; 79; 80; 80].
Proof. reflexivity. Qed.

Lemma split_index_bounds (n : Z) :
  50 <= n < 2 ^ 50 -> 1 <= split_index n < n.
Proof.
  intros Hn. rewrite split_index_floor by lia. Z.div_mod_to_equations. lia.
Qed.

(** ** The dataset keeps the games in order, once each *)

Lemma Permutation_filter {A : Type} (p : A -> bool) (l l' : list A) :
  Permutation l l' -> Permutation (filter p l) (filter p l').
Proof.
  induction 1 as [|x l l' _ IH|x y l|l1 l2 l3 _ IH1 _ IH2]; cbn [filter].
  - constructor.
  - destruct (p x); [apply perm_skip|]; exact IH.
  - destruct (p x), (p y); try reflexivity. apply perm_swap.
  - etransitivity; eassumption.
Qed.

Lemma length_transform_from {A B : Type} (key col : A -> Z)
    (f : list Z -> list (option B)) (rows rest : list A) (p : nat) :
  length (transform_from key col f rows p rest) = length rest.
Proof.
  revert p. induction rest as [|r rest IH]; intros p; [reflexivity|].
  cbn [transform_from length]. rewrite IH. reflexivity.
Qed.

Lemma map_fst_with_r10 (TEAM_GAMES : list TG.t) :
  map fst (with_r10 TEAM_GAMES) = stable_sort team_date_leb TEAM_GAMES.
Proof.
  unfold with_r10. apply map_fst_combine.
  unfold groupby_transform. rewrite length_transform_from. reflexivity.
Qed.

Lemma filter_view_home (games : list Game.t) :
  filter (fun r => TG.is_home r =? 1) (team_game_view games) = map home_view games.
Proof.
  unfold team_game_view. rewrite filter_app, !filter_map_comm. cbn [home_view away_view TG.is_home].
  change (fun _ : Game.t => 1 =? 1) with (fun _ : Game.t => true).
  change (fun _ : Game.t => 0 =? 1) with (fun _ : Game.t => false).
  assert (Hall : forall l : list Game.t, filter (fun _ => true) l = l).
  { induction l as [|x l IH]; cbn; congruence. }
  assert (Hnone : forall l : list Game.t, filter (fun _ => false) l = []).
  { induction l as [|x l IH]; cbn; congruence. }
  rewrite Hall, Hnone. cbn [map]. apply app_nil_r.
Qed.

Lemma filter_view_away (games : list Game.t) :
  filter (fun r => TG.is_home r =? 0) (team_game_view games) = map away_view games.
Proof.
  unfold team_game_view. rewrite filter_app, !filter_map_comm. cbn [home_view away_view TG.is_home].
  change (fun _ : Game.t => 1 =? 0) with (fun _ : Game.t => false).
  change (fun _ : Game.t => 0 =? 0) with (fun _ : Game.t => true).
  assert (Hall : forall l : list Game.t, filter (fun _ => true) l = l).
  { induction l as [|x l IH]; cbn; congruence. }
  assert (Hnone : forall l : list Game.t, filter (fun _ => false) l = []).
  { induction l as [|x l IH]; cbn; congruence. }
  rewrite Hall, Hnone. reflexivity.
Qed.

(** Each side frame holds one row per game. *)
Lemma side_frame_ids (games : list Game.t) (side : Z) :
  side = 1 \/ side = 0 ->
  NoDup (map Game.game_id games) ->
  NoDup (map side_game_id
           (map side_row (filter (fun x => TG.is_home (fst x) =? side)
                                 (with_r10 (team_game_view games))))).
Proof.
  intros Hside Hnd.
  rewrite map_map. cbn [side_row side_game_id].
  rewrite <- (map_map fst TG.game_id).
  rewrite <- (filter_map_comm fst (fun r => TG.is_home r =? side)).
  rewrite map_fst_with_r10.
  eapply Permutation_NoDup.
  - apply Permutation_map. apply Permutation_filter. apply stable_sort_perm.
  - destruct Hside as [-> | ->].
    + rewrite filter_view_home, map_map. exact Hnd.
    + rewrite filter_view_away, map_map. exact Hnd.
Qed.

Lemma filter_length_le {A : Type} (p q : A -> bool) (l : list A) :
  (forall x, p x = true -> q x = true) ->
  (length (filter p l) <= length (filter q l))%nat.
Proof.
  intros Hpq. induction l as [|x l IH]; [reflexivity|].
  cbn [filter]. destruct (p x) eqn:E.
  - rewrite (Hpq x E). cbn. lia.
  - destruct (q x); cbn; lia.
Qed.

Lemma filter_key_length {A : Type} (key : A -> Z) (l : list A) (k : Z) :
  NoDup (map key l) -> (length (filter (fun x => (key x =? k)%Z) l) <= 1)%nat.
Proof.
  induction l as [|x l IH]; intros Hnd; [cbn; lia|].
  cbn [map] in Hnd. inversion Hnd as [|? ? Hx Hnd']; subst.
  cbn [filter]. destruct (Z.eqb_spec (key x) k) as [E|_].
  - subst k. rewrite filter_key_absent by exact Hx. cbn. lia.
  - apply IH. exact Hnd'.
Qed.

Lemma merge_left_fst {L R V : Type} (on : L -> R -> bool) (val : R -> option V)
    (left : list L) (right : list R) :
  (forall l, (length (filter (on l) right) <= 1)%nat) ->
  map fst (merge_left on val left right) = left.
Proof.
  intros Hone. unfold merge_left.
  induction left as [|l left IH]; [reflexivity|].
  cbn [flat_map]. rewrite map_app, IH. unfold merge_row.
  specialize (Hone l). destruct (filter (on l) right) as [|m [|m' ms]]; cbn in *.
  - reflexivity.
  - reflexivity.
  - lia.
Qed.

Lemma ds_game_derive (x : (Game.t * option Q) * option Q) :
  ds_game (derive x) = fst (fst x).
Proof. destruct x as [[[] ?] ?]. reflexivity. Qed.

(** Before rows are dropped, the dataset has the rows of [GAMES], in the
    same order. *)
Lemma home_ds_games (GAMES : list Game.t) :
  NoDup (map Game.game_id GAMES) ->
  exists m, HOME_DS GAMES = dropna_r10 m /\ map ds_game m = GAMES.
Proof.
  intros Hnd. unfold HOME_DS, build_home_win_dataset, TEAM_GAMES.
  eexists. split; [reflexivity|].
  rewrite map_map. rewrite (map_ext _ (fun x => fst (fst x)) ds_game_derive).
  rewrite <- (map_map fst fst).
  rewrite merge_left_fst.
  - apply merge_left_fst. intros g.
    etransitivity; [apply (filter_length_le _ (fun h => side_game_id h =? Game.game_id g))|].
    + intros h Hh. unfold on_home in Hh.
      apply andb_true_iff in Hh. destruct Hh as [Hh _].
      apply andb_true_iff in Hh. destruct Hh as [Hh _].
      apply Z.eqb_eq in Hh. apply Z.eqb_eq. congruence.
    + apply filter_key_length. apply side_frame_ids; [left; reflexivity | exact Hnd].
  - intros x.
    etransitivity; [apply (filter_length_le _ (fun a => side_game_id a =? Game.game_id (fst x)))|].
    + intros a Ha. unfold on_away in Ha.
      apply andb_true_iff in Ha. destruct Ha as [Ha _].
      apply andb_true_iff in Ha. destruct Ha as [Ha _].
      apply Z.eqb_eq in Ha. apply Z.eqb_eq. congruence.
    + apply filter_key_length. apply side_frame_ids; [right; reflexivity | exact Hnd].
Qed.

Lemma sorted_map_filter {A : Type} (f : A -> Z) (p : A -> bool) (l : list A) :
  StronglySorted Z.le (map f l) -> StronglySorted Z.le (map f (filter p l)).
Proof.
  induction l as [|x l IH]; intros Hs; [constructor|].
  cbn [map] in Hs. inversion Hs as [|? ? Hs' Hx]; subst.
  cbn [filter]. destruct (p x); [|apply IH; exact Hs'].
  cbn [map]. constructor; [apply IH; exact Hs'|].
  rewrite Forall_forall in *. intros y Hy. apply Hx.
  apply in_map_iff in Hy. destruct Hy as [z [<- Hz]].
  apply in_map. apply filter_In in Hz. tauto.
Qed.

Lemma nodup_map_filter {A : Type} (f : A -> Z) (p : A -> bool) (l : list A) :
  NoDup (map f l) -> NoDup (map f (filter p l)).
Proof.
  induction l as [|x l IH]; intros Hnd; [constructor|].
  cbn [map] in Hnd. inversion Hnd as [|? ? Hx Hnd']; subst.
  cbn [filter]. destruct (p x); [|apply IH; exact Hnd'].
  cbn [map]. constructor; [|apply IH; exact Hnd'].
  intros Hin. apply Hx.
  apply in_map_iff in Hin. destruct Hin as [z [<- Hz]].
  apply in_map. apply filter_In in Hz. tauto.
Qed.

Lemma sorted_app_le {A : Type} (f : A -> Z) (l1 l2 : list A) (a b : A) :
  StronglySorted Z.le (map f (l1 ++ l2)) -> In a l1 -> In b l2 -> f a <= f b.
Proof.
  induction l1 as [|x l1 IH]; intros Hs Ha Hb; [contradiction|].
  cbn [app map] in Hs. inversion Hs as [|? ? Hs' Hx]; subst.
  destruct Ha as [->|Ha]; [|apply IH; assumption].
  rewrite Forall_forall in Hx. apply Hx. apply in_map. apply in_or_app. right. exact Hb.
Qed.

Lemma nodup_app_disjoint {A : Type} (f : A -> Z) (l1 l2 : list A) (a : A) :
  NoDup (map f (l1 ++ l2)) -> In a l1 -> In a l2 -> False.
Proof.
  induction l1 as [|x l1 IH]; intros Hnd Ha Hb; [contradiction|].
  cbn [app map] in Hnd. inversion Hnd as [|? ? Hx Hnd']; subst.
  destruct Ha as [->|Ha]; [|apply IH; assumption].
  apply Hx. apply in_map. apply in_or_app. right. exact Hb.
Qed.

(** The rows of the dataset inside a date range are in the order of
    [GAMES], with no game twice. *)
Lemma home_ds_range_order (GAMES : list Game.t) (start end_ : Z) :
  Sorted Z.le (map Game.date GAMES) ->
  NoDup (map Game.game_id GAMES) ->
  let ds := filter (fun r => in_range start end_ (DS.date r)) (HOME_DS GAMES) in
  StronglySorted Z.le (map DS.date ds) /\ NoDup (map DS.game_id ds).
Proof.
  intros Hsorted Hnd ds.
  destruct (home_ds_games GAMES Hnd) as [m [Hm Hgames]].
  subst ds. rewrite Hm. unfold dropna_r10. split.
  - apply sorted_map_filter, sorted_map_filter.
    replace (map DS.date m) with (map Game.date (map ds_game m))
      by (rewrite map_map; reflexivity).
    rewrite Hgames. apply Sorted_StronglySorted; [|exact Hsorted].
    intros x y z. apply Z.le_trans.
  - apply nodup_map_filter, nodup_map_filter.
    replace (map DS.game_id m) with (map Game.game_id (map ds_game m))
      by (rewrite map_map; reflexivity).
    rewrite Hgames. exact Hnd.
Qed.

Lemma sortedb_sound (l : list Z) : sortedb l = true -> Sorted Z.le l.
Proof.
  induction l as [|x l IH]; intros H; [constructor|].
  destruct l as [|y l].
  - repeat constructor.
  - cbn [sortedb] in H. apply andb_true_iff in H. destruct H as [Hxy Hl].
    constructor; [apply IH; exact Hl|]. constructor. apply Z.leb_le. exact Hxy.
Qed.

Lemma nodupb_sound (l : list Z) : nodupb l = true -> NoDup l.
Proof.
  induction l as [|x l IH]; intros H; [constructor|].
  cbn [nodupb] in H. apply andb_true_iff in H. destruct H as [Hx Hl].
  constructor; [|apply IH; exact Hl].
  intros Hin. apply negb_true_iff in Hx.
  assert (existsb (Z.eqb x) l = true); [|congruence].
  apply existsb_exists. exists x. split; [exact Hin | apply Z.eqb_refl].
Qed.

Lemma build_home_win_dataset_rows_witness :
  exists h a,
    DS.home_r10 day5_row = Some h /\ DS.away_r10 day5_row = Some a
    /\ form_before_join (team_game_view late_streak) 1
         (DS.game_id day5_row) (DS.date day5_row) (DS.home_team_id day5_row) h
    /\ form_before_join (team_game_view late_streak) 0
         (DS.game_id day5_row) (DS.date day5_row) (DS.away_team_id day5_row) a
    /\ DS.r10_diff day5_row
       = Qminus (fillna half (DS.home_r10 day5_row)) (fillna half (DS.away_r10 day5_row))
    /\ DS.r10_diff day5_row = Qminus h a.
Proof.
  apply (build_home_win_dataset_rows (team_game_view late_streak) late_streak day5_row).
  vm_compute. left. reflexivity.
Defined.

(** The model feature is windowed like the trend: the [home_r10] of the
    fifth day of [late_streak] is 3/5, the home wins of days 1, 3 and 5
    over five games, the fifth included. *)
Example r10_counts_current_game :
  map Game.home_score (firstn 5 late_streak) = [5; 2; 5; 2; 5]
  /\ nth_error (HOME_DS late_streak) 0 = Some day5_row
  /\ DS.home_r10 day5_row = Some (Qmake 3 5).
Proof. repeat split; vm_compute; reflexivity. Qed.

(** ** The model tab *)

Section ModelTab.
Context (F Model : Type)
        (fit : list (Q * Z) -> list Z -> result Model)
        (predict_proba : Model -> list (Q * Z) -> list F)
        (coef_ : Model -> list F)
        (roc_auc_score : list Z -> list F -> result F)
        (sort_values : list TG.t -> list TG.t)
        (GAMES : list Game.t)
        (ABBR_BY_ID : Z -> option string)
        (team_id window : Z).

Let rows (start end_ : Z) : list DS.t :=
  filter (fun r => in_range start end_ (DS.date r)) (HOME_DS GAMES).
Let features : list DS.t -> list (Q * Z) :=
  map (fun r => (DS.r10_diff r, DS.is_home r)).
Let labels : list DS.t -> list Z := map DS.home_win.
Let run (start end_ : Z) : traced F (Html F) :=
  render_tab F Model fit predict_proba coef_ roc_auc_score sort_values GAMES
             ABBR_BY_ID "tab-model" team_id window start end_.

(** The run on a range with at least 50 rows, call by call. *)
Lemma model_tab_run (start end_ : Z) :
  50 <= Z.of_nat (length (rows start end_)) ->
  let k := Z.to_nat (split_index (Z.of_nat (length (rows start end_)))) in
  let train := firstn k (rows start end_) in
  let test := skipn k (rows start end_) in
  run start end_ =
    match fit (features train) (labels train) with
    | Raise e => ([CallFit (features train) (labels train)], Raise e)
    | Return m =>
      let proba := predict_proba m (features test) in
      let log := [CallFit (features train) (labels train);
                  CallPredictProba (features test);
                  CallRocAucScore (labels test) proba] in
      match roc_auc_score (labels test) proba with
      | Raise e => (log, Raise e)
      | Return a =>
        match assign_proba test proba with
        | Raise e => (log, Raise e)
        | Return tv =>
          (log, Return (ModelView (coef_ m) a (tail 20 (test_table ABBR_BY_ID tv))))
        end
      end
    end.
Proof.
  intros Hn k train test. unfold run, render_tab.
  change (String.eqb "tab-model" "tab-trend") with false.
  change (String.eqb "tab-model" "tab-runs") with false.
  cbv iota. unfold model_tab. fold (rows start end_).
  destruct (Z.ltb_spec (Z.of_nat (length (rows start end_))) 50); [lia|].
  fold k. rewrite !firstn_map, !skipn_map. fold train test.
  fold (features train) (features test) (labels train) (labels test).
  unfold tbind, call, lift, tret.
  destruct (fit (features train) (labels train)) as [m|e]; [|reflexivity].
  destruct (roc_auc_score (labels test) (predict_proba m (features test))) as [a|e];
    [|reflexivity].
  destruct (assign_proba test (predict_proba m (features test))) as [tv|e]; reflexivity.
Qed.

(** C7: when the date range keeps fewer than 50 dataset rows, the model
    tab returns the "not enough games" message, a result of another
    shape than a computed one; nothing is raised and no scikit-learn
    call is made. *)
Theorem render_tab_not_enough (tab : string) (start end_ : Z) :
  String.eqb tab "tab-trend" = false ->
  String.eqb tab "tab-runs" = false ->
  Z.of_nat (length (rows start end_)) < 50 ->
  render_tab F Model fit predict_proba coef_ roc_auc_score sort_values GAMES
             ABBR_BY_ID tab team_id window start end_
  = ([], Return (Message not_enough))
  /\ forall coef auc tbl, Message not_enough <> ModelView (F := F) coef auc tbl.
Proof.
  intros Ht Hr Hn. split; [|discriminate].
  unfold render_tab. rewrite Ht, Hr. unfold model_tab. fold (rows start end_).
  destruct (Z.ltb_spec (Z.of_nat (length (rows start end_))) 50); [reflexivity | lia].
Qed.

(** C10: past the 50-row check, the split index is the floor of [0.8 n]
    and lies in [1, n), so the training rows and the evaluation rows are
    both non-empty: the classifier is fit, and no scikit-learn call is
    handed an empty sample. *)
Theorem model_tab_partitions_nonempty (start end_ : Z) :
  let n := Z.of_nat (length (rows start end_)) in
  50 <= n < 2 ^ 50 ->
  split_index n = 4 * n / 5
  /\ 1 <= split_index n < n
  /\ firstn (Z.to_nat (split_index n)) (rows start end_) <> []
  /\ skipn (Z.to_nat (split_index n)) (rows start end_) <> []
  /\ (exists X y log, fst (run start end_) = CallFit X y :: log)
  /\ forall ev, In ev (fst (run start end_)) -> ~ empty_call ev.
Proof.
  intros n Hn.
  pose proof (split_index_bounds n Hn) as Hk.
  assert (Htrain : firstn (Z.to_nat (split_index n)) (rows start end_) <> []).
  { intros E. apply (f_equal (@length DS.t)) in E.
    rewrite length_firstn in E. cbn [length] in E. lia. }
  assert (Htest : skipn (Z.to_nat (split_index n)) (rows start end_) <> []).
  { intros E. apply (f_equal (@length DS.t)) in E.
    rewrite length_skipn in E. cbn [length] in E. lia. }
  split; [apply split_index_floor; lia|]. split; [exact Hk|].
  split; [exact Htrain|]. split; [exact Htest|].
  rewrite (model_tab_run start end_) by lia. fold n.
  set (train := firstn (Z.to_nat (split_index n)) (rows start end_)) in *.
  set (test := skipn (Z.to_nat (split_index n)) (rows start end_)) in *.
  assert (Hf : forall l : list DS.t, l <> [] -> features l <> [])
    by (intros [|? ?] ? ; [congruence | discriminate]).
  assert (Hl : forall l : list DS.t, l <> [] -> labels l <> [])
    by (intros [|? ?] ? ; [congruence | discriminate]).
  cbv zeta.
  destruct (fit (features train) (labels train)) as [m|e].
  - assert (Hev : forall ev,
               In ev [CallFit (features train) (labels train);
                      CallPredictProba (features test);
                      CallRocAucScore (labels test) (predict_proba m (features test))] ->
               ~ empty_call ev).
    { intros ev [<-|[<-|[<-|[]]]]; cbn [empty_call].
      - intros [E|E]; [apply (Hf train) | apply (Hl train)]; assumption.
      - apply Hf. exact Htest.
      - apply Hl. exact Htest. }
    destruct (roc_auc_score (labels test) (predict_proba m (features test))) as [a|e];
      [destruct (assign_proba test (predict_proba m (features test))) as [tv|e]|];
      (split; [do 3 eexists; reflexivity | exact Hev]).
  - split; [do 3 eexists; reflexivity|].
    intros ev [<-|[]]. cbn [empty_call].
    intros [E|E]; [apply (Hf train) | apply (Hl train)]; assumption.
Qed.

(** C6: with [GAMES] in ascending date order and one row per game id,
    a range of [n >= 50] rows is cut by position: the classifier is fit
    on the first [floor (0.8 n)] rows, predictions and the score are
    computed on the remaining rows, the order is untouched, every
    training row is dated no later than every evaluation row, and no
    row is on both sides. *)
Theorem model_tab_chronological_split (start end_ : Z) :
  Sorted Z.le (map Game.date GAMES) ->
  NoDup (map Game.game_id GAMES) ->
  let n := Z.of_nat (length (rows start end_)) in
  50 <= n < 2 ^ 50 ->
  let train := firstn (Z.to_nat (4 * n / 5)) (rows start end_) in
  let eval := skipn (Z.to_nat (4 * n / 5)) (rows start end_) in
  rows start end_ = train ++ eval
  /\ Z.of_nat (length train) = 4 * n / 5
  /\ (exists log,
        fst (run start end_) = CallFit (features train) (labels train) :: log
        /\ forall ev, In ev log -> ~ is_fit ev)
  /\ (forall m, fit (features train) (labels train) = Return m ->
        fst (run start end_)
        = [CallFit (features train) (labels train);
           CallPredictProba (features eval);
           CallRocAucScore (labels eval) (predict_proba m (features eval))])
  /\ (forall t e, In t train -> In e eval -> DS.date t <= DS.date e)
  /\ (forall r, In r train -> ~ In r eval).
Proof.
  intros Hsorted Hnd n Hn train eval.
  destruct (home_ds_range_order GAMES start end_ Hsorted Hnd) as [Hs Hd].
  fold (rows start end_) in Hs, Hd.
  assert (Hsplit : rows start end_ = train ++ eval)
    by (symmetry; apply firstn_skipn).
  pose proof (split_index_floor n ltac:(lia)) as Hk.
  split; [exact Hsplit|]. split.
  { unfold train. rewrite length_firstn. fold n. Z.div_mod_to_equations. lia. }
  rewrite (model_tab_run start end_) by lia. fold n. rewrite Hk.
  fold train eval. cbv zeta.
  split; [|split; [|split]].
  - destruct (fit (features train) (labels train)) as [m|e].
    + exists [CallPredictProba (features eval);
              CallRocAucScore (labels eval) (predict_proba m (features eval))].
      split.
      * destruct (roc_auc_score (labels eval) (predict_proba m (features eval)));
          [destruct (assign_proba eval (predict_proba m (features eval)))|];
          reflexivity.
      * intros ev [<-|[<-|[]]]; cbn; tauto.
    + exists []. split; [reflexivity|]. intros ev [].
  - intros m Hm. rewrite Hm.
    destruct (roc_auc_score (labels eval) (predict_proba m (features eval)));
      [destruct (assign_proba eval (predict_proba m (features eval)))|];
      reflexivity.
  - intros t e Ht He. rewrite Hsplit in Hs.
    exact (sorted_app_le DS.date train eval t e Hs Ht He).
  - intros r Ht He. rewrite Hsplit in Hd.
    exact (nodup_app_disjoint DS.game_id train eval r Hd Ht He).
Qed.

(** C1 (amended): for an evaluation partition with a single label class
    the model tab makes no check of its own.  It returns a result only
    when the classifier accepts the training partition: an exception of
    [fit] (raised on training labels of a single class) leaves the call
    after the fit alone.  When [fit] returns, the call hands on the
    scorer's answer for the one-class labels: with a scorer that answers
    NaN for them, the result carries the coefficients, the table of the
    last 20 evaluation rows and that NaN as its AUC, undefined and not a
    number of the call's own making; with a scorer that raises for them,
    the call raises the scorer's exception.  [predict_proba] gives one
    probability per row. *)
Theorem model_tab_single_class (nan : F) (start end_ : Z) :
  let k := Z.to_nat (split_index (Z.of_nat (length (rows start end_)))) in
  let train := firstn k (rows start end_) in
  let eval := skipn k (rows start end_) in
  let asked m := [CallFit (features train) (labels train);
                  CallPredictProba (features eval);
                  CallRocAucScore (labels eval) (predict_proba m (features eval))] in
  50 <= Z.of_nat (length (rows start end_)) ->
  length (classes (labels eval)) = 1%nat ->
  (forall m X, length (predict_proba m X) = length X) ->
  (forall e, fit (features train) (labels train) = Raise e ->
     run start end_ = ([CallFit (features train) (labels train)], Raise e))
  /\ (forall m, fit (features train) (labels train) = Return m ->
      ((forall y X m',
          length (classes y) = 1%nat -> length X = length y ->
          roc_auc_score y (predict_proba m' X) = Return nan) ->
       run start end_
       = (asked m,
          Return (ModelView (coef_ m) nan
                    (tail 20 (test_table ABBR_BY_ID
                                (combine eval (predict_proba m (features eval))))))))
      /\ (forall e,
            (forall y X m',
               length (classes y) = 1%nat -> length X = length y ->
               roc_auc_score y (predict_proba m' X) = Raise e) ->
            run start end_ = (asked m, Raise e))).
Proof.
  intros k train eval asked Hn Hone Hproba.
  rewrite (model_tab_run start end_) by exact Hn.
  fold k. fold train eval. cbv zeta. split.
  - intros e He. rewrite He. reflexivity.
  - intros m Hm. rewrite Hm.
    assert (Hrows : length (features eval) = length (labels eval)).
    { unfold features, labels. rewrite !length_map. reflexivity. }
    assert (Hassign : assign_proba eval (predict_proba m (features eval))
                      = Return (combine eval (predict_proba m (features eval)))).
    { unfold assign_proba. rewrite Hproba. unfold features. rewrite length_map.
      rewrite Nat.eqb_refl. reflexivity. }
    split.
    + intros Hscorer. rewrite (Hscorer _ _ m Hone Hrows), Hassign. reflexivity.
    + intros e Hscorer. rewrite (Hscorer _ _ m Hone Hrows). reflexivity.
Qed.
End ModelTab.

(** ** The model tab on the sample seasons *)

Lemma late_streak_sorted : Sorted Z.le (map Game.date late_streak).
Proof. apply sortedb_sound. vm_compute. reflexivity. Qed.

Lemma late_streak_ids : NoDup (map Game.game_id late_streak).
Proof. apply nodupb_sound. vm_compute. reflexivity. Qed.

Lemma late_streak_rows :
  let n := Z.of_nat (length (filter (fun r => in_range 0 100 (DS.date r))
                                    (HOME_DS late_streak))) in
  50 <= n < 2 ^ 50.
Proof.
  cbv zeta. split; [apply Z.leb_le | apply Z.ltb_lt]; vm_compute; reflexivity.
Qed.

Lemma render_tab_not_enough_witness :
  Ref.render_tab late_streak "tab-model" 1 10 0 40 = ([], Return (Message not_enough))
  /\ forall coef auc tbl, Message not_enough <> ModelView (F := Ref.F) coef auc tbl.
Proof.
  apply (render_tab_not_enough Ref.F Q Ref.fit Ref.predict_proba Ref.coef_ Ref.roc_auc_score
           sort_by_date late_streak Ref.ABBR_BY_ID 1 10 "tab-model" 0 40).
  - reflexivity.
  - reflexivity.
  - apply Z.ltb_lt. vm_compute. reflexivity.
Defined.

Lemma model_tab_partitions_nonempty_witness :
  let rows := filter (fun r => in_range 0 100 (DS.date r)) (HOME_DS late_streak) in
  let n := Z.of_nat (length rows) in
  split_index n = 4 * n / 5
  /\ 1 <= split_index n < n
  /\ firstn (Z.to_nat (split_index n)) rows <> []
  /\ skipn (Z.to_nat (split_index n)) rows <> []
  /\ (exists X y log,
        fst (Ref.render_tab late_streak "tab-model" 1 10 0 100) = CallFit X y :: log)
  /\ forall ev, In ev (fst (Ref.render_tab late_streak "tab-model" 1 10 0 100)) ->
                ~ empty_call ev.
Proof.
  exact (model_tab_partitions_nonempty Ref.F Q Ref.fit Ref.predict_proba Ref.coef_
           Ref.roc_auc_score sort_by_date late_streak Ref.ABBR_BY_ID 1 10 0 100
           late_streak_rows).
Defined.

Lemma model_tab_chronological_split_witness :
  let rows := filter (fun r => in_range 0 100 (DS.date r)) (HOME_DS late_streak) in
  let n := Z.of_nat (length rows) in
  let train := firstn (Z.to_nat (4 * n / 5)) rows in
  let eval := skipn (Z.to_nat (4 * n / 5)) rows in
  rows = train ++ eval
  /\ Z.of_nat (length train) = 4 * n / 5
  /\ (forall t e, In t train -> In e eval -> DS.date t <= DS.date e)
  /\ (forall r, In r train -> ~ In r eval).
Proof.
  destruct (model_tab_chronological_split Ref.F Q Ref.fit Ref.predict_proba Ref.coef_
              Ref.roc_auc_score sort_by_date late_streak Ref.ABBR_BY_ID 1 10 0 100
              late_streak_sorted late_streak_ids late_streak_rows)
    as [H1 [H2 [_ [_ [H3 H4]]]]].
  cbv zeta. split; [exact H1|]. split; [exact H2|]. split; [exact H3 | exact H4].
Defined.

(** C1 as stated fails: on sixty games all won by the home side, the
    evaluation partition holds one class only; so does the training
    partition, and the call raises the [ValueError] of [fit]. *)
Lemma single_class_run_raises :
  let rows := filter (fun r => in_range 0 100 (DS.date r)) (HOME_DS home_sweep) in
  length rows = 56%nat
  /\ split_index 56 = 44
  /\ classes (map DS.home_win (skipn 44 rows)) = [1]
  /\ snd (Ref.render_tab home_sweep "tab-model" 1 10 0 100)
     = Raise (ValueError "This solver needs samples of at least 2 classes in the data").
Proof. cbv zeta. split; [|split; [|split]]; vm_compute; reflexivity. Qed.

Lemma roc_auc_score_one_class (y : list Z) (slope : Q) (X : list (Q * Z)) :
  length (classes y) = 1%nat ->
  Ref.roc_auc_score y (Ref.predict_proba slope X) = Return Ref.nan.
Proof.
  intros Hy. unfold Ref.roc_auc_score.
  assert (Hnum : exists qs, Ref.numbers (Ref.predict_proba slope X) = Some qs).
  { unfold Ref.predict_proba. induction X as [|x X IH]; cbn [map Ref.numbers].
    - exists []. reflexivity.
    - destruct IH as [qs ->]. eexists. reflexivity. }
  destruct Hnum as [qs ->]. rewrite Hy. reflexivity.
Qed.

Lemma model_tab_single_class_witness :
  length (classes (map DS.home_win
            (skipn 44 (filter (fun r => in_range 0 100 (DS.date r))
                              (HOME_DS late_streak))))) = 1%nat
  /\ exists tbl,
       snd (Ref.render_tab late_streak "tab-model" 1 10 0 100)
       = Return (ModelView (Ref.coef_ (Qmake 1 2)) Ref.nan tbl).
Proof.
  split; [vm_compute; reflexivity|].
  destruct (model_tab_single_class Ref.F Q Ref.fit Ref.predict_proba Ref.coef_
              Ref.roc_auc_score sort_by_date late_streak Ref.ABBR_BY_ID 1 10
              Ref.nan 0 100) as [_ Hreturns].
  - apply Z.leb_le. vm_compute. reflexivity.
  - vm_compute. reflexivity.
  - intros slope X. apply length_map.
  - destruct (Hreturns (Qmake 1 2)) as [Hnan _]; [vm_compute; reflexivity|].
    eexists. unfold Ref.render_tab. rewrite Hnan.
    + reflexivity.
    + intros y X slope Hy _. exact (roc_auc_score_one_class y slope X Hy).
Defined.

(** * Further properties of the dashboard *)

(** ** Rolling values lie between 0 and 1 *)

Lemma forall_firstn {A : Type} (P : A -> Prop) (n : nat) (l : list A) :
  Forall P l -> Forall P (firstn n l).
Proof.
  intros H. revert n. induction H as [|x l Hx _ IH]; intros [|n]; cbn; constructor; auto.
Qed.

Lemma forall_skipn {A : Type} (P : A -> Prop) (n : nat) (l : list A) :
  Forall P l -> Forall P (skipn n l).
Proof.
  intros H. revert n. induction H as [|x l Hx Hl IH]; intros [|n]; cbn; auto.
Qed.

Lemma sumZ_flags (l : list Z) :
  Forall is_flag l -> 0 <= sumZ l <= Z.of_nat (length l).
Proof.
  induction 1 as [|x l Hx _ IH]; [cbn; lia|].
  change (sumZ (x :: l)) with (x + sumZ l). unfold is_flag in Hx.
  cbn [length]. lia.
Qed.

Lemma mean_at_unit_interval (r : Rolling) (i : nat) (q : Q) :
  Forall is_flag (obj r) -> mean_at r i = Some q -> (0 <= q <= 1)%Q.
Proof.
  intros Hflags. unfold mean_at.
  set (w := window_at (obj r) (window r) i).
  assert (Hw : Forall is_flag w) by (apply forall_skipn, forall_firstn, Hflags).
  pose proof (sumZ_flags w Hw) as Hsum.
  destruct ((min_periods r <=? Z.of_nat (length w)) && (0 <? Z.of_nat (length w))) eqn:E;
    [|discriminate].
  apply andb_true_iff in E. destruct E as [_ Hpos]. apply Z.ltb_lt in Hpos.
  intros Hq. inversion Hq; subst q. unfold Qle. cbn [Qnum Qden].
  rewrite Z2Pos.id by exact Hpos. lia.
Qed.

Lemma mean_unit_interval (r : Rolling) (q : Q) :
  Forall is_flag (obj r) -> In (Some q) (mean r) -> (0 <= q <= 1)%Q.
Proof.
  intros Hflags Hin. unfold mean in Hin. apply in_map_iff in Hin.
  destruct Hin as [i [Hq _]]. exact (mean_at_unit_interval r i q Hflags Hq).
Qed.

Lemma team_game_view_flags (games : list Game.t) :
  Forall is_flag (map TG.win (team_game_view games)).
Proof.
  apply Forall_forall. intros w Hw. apply in_map_iff in Hw.
  destruct Hw as [r [<- Hr]]. rewrite (team_game_view_win games r Hr).
  unfold is_flag, gt_int. destruct (TG.runs_against r <? TG.runs_for r); lia.
Qed.

Lemma sorted_dates (t : list TG.t) :
  StronglySorted date_le t -> StronglySorted Z.le (map TG.date t).
Proof.
  induction 1 as [|a l _ IH Hall]; cbn [map]; constructor; [exact IH|].
  apply Forall_forall. intros d Hd. apply in_map_iff in Hd.
  destruct Hd as [b [<- Hb]]. rewrite Forall_forall in Hall. exact (Hall b Hb).
Qed.

Lemma filter_fst_combine {A B : Type} (p : A -> bool) (l : list A) (l' : list B) :
  length l = length l' ->
  map fst (filter (fun x => p (fst x)) (combine l l')) = filter p l.
Proof.
  intros Hlen. rewrite <- (filter_map_comm fst p). rewrite map_fst_combine by exact Hlen.
  reflexivity.
Qed.

Lemma filter_twice {A : Type} (p q : A -> bool) (l : list A) :
  filter q (filter p l) = filter (fun x => p x && q x) l.
Proof.
  induction l as [|x l IH]; cbn [filter]; [reflexivity|].
  destruct (p x); cbn [filter andb]; [destruct (q x)|]; rewrite IH; reflexivity.
Qed.

(** X1: for a window of at least 1, the trend tab raises nothing and
    calls no model.  It plots the rows that [rolling_win_pct] returns for
    the selected team, each with the rolling value it has there, keeping
    those dated within the chosen range: the plotted rows are exactly the
    selected team's games in the range, each once, in ascending date
    order; every rolling value lies between 0 and 1 (the fixed range of
    the chart's axis), and the "games shown" count is the number of
    plotted points. *)
Theorem trend_tab_view (F Model : Type)
    (fit : list (Q * Z) -> list Z -> result Model)
    (predict_proba : Model -> list (Q * Z) -> list F)
    (coef_ : Model -> list F)
    (roc_auc_score : list Z -> list F -> result F)
    (sort_values : list TG.t -> list TG.t)
    (GAMES : list Game.t) (ABBR_BY_ID : Z -> option string)
    (team_id W start end_ : Z) :
  date_sort sort_values ->
  1 <= W ->
  exists df,
    rolling_win_pct sort_values (team_game_view GAMES) team_id W = Return df
    /\ let shown := filter (fun x => in_range start end_ (TG.date (fst x))) df in
       render_tab F Model fit predict_proba coef_ roc_auc_score sort_values GAMES
                  ABBR_BY_ID "tab-trend" team_id W start end_
       = ([], Return (TrendView (map (fun x => (TG.date (fst x), snd x)) shown)
                                (length shown)))
       /\ Permutation (map fst shown)
            (filter (fun r => (TG.team_id r =? team_id)
                              && in_range start end_ (TG.date r))
                    (team_game_view GAMES))
       /\ StronglySorted Z.le (map (fun x => TG.date (fst x)) shown)
       /\ forall x q, In x shown -> snd x = Some q -> (0 <= q <= 1)%Q.
Proof.
  intros [Hperm Hsorted] HW.
  set (t := sort_values (filter (fun r => TG.team_id r =? team_id) (team_game_view GAMES))).
  set (R := mkRolling (map TG.win t) W (Z.max 1 (W / 2))).
  assert (Hlen : length t = length (mean R)).
  { rewrite length_mean. unfold R. cbn [obj]. rewrite length_map. reflexivity. }
  assert (Hdf : rolling_win_pct sort_values (team_game_view GAMES) team_id W
                = Return (combine t (mean R))).
  { unfold rolling_win_pct. fold t. rewrite winpct_accepts by exact HW. reflexivity. }
  exists (combine t (mean R)). split; [exact Hdf|]. cbv zeta.
  set (shown := filter (fun x => in_range start end_ (TG.date (fst x)))
                       (combine t (mean R))).
  assert (Hrows : map fst shown = filter (fun r => in_range start end_ (TG.date r)) t).
  { exact (filter_fst_combine (fun r => in_range start end_ (TG.date r)) t (mean R) Hlen). }
  split; [|split; [|split]].
  - unfold render_tab. change (String.eqb "tab-trend" "tab-trend") with true. cbv iota.
    unfold trend_tab, TEAM_GAMES. rewrite Hdf. unfold tbind, lift, tret. cbn [app].
    fold shown. reflexivity.
  - rewrite Hrows, <- filter_twice. apply Permutation_filter.
    apply Permutation_sym. apply Hperm.
  - rewrite <- (map_map fst TG.date), Hrows.
    apply sorted_map_filter. apply sorted_dates. apply Hsorted.
  - intros x q Hin Hq. unfold shown in Hin. apply filter_In in Hin.
    destruct Hin as [Hin _]. apply (mean_unit_interval R q).
    + unfold R. cbn [obj]. apply Forall_forall. intros w Hw.
      apply in_map_iff in Hw. destruct Hw as [r' [<- Hr']].
      pose proof (team_game_view_flags GAMES) as Hflags.
      rewrite Forall_forall in Hflags. apply Hflags. apply in_map.
      unfold t in Hr'. apply (Permutation_in _ (Permutation_sym (Hperm _))) in Hr'.
      apply filter_In in Hr'. exact (proj1 Hr').
    + rewrite <- Hq. destruct x as [r v]. apply in_combine_r in Hin. exact Hin.
Qed.

Lemma trend_tab_view_witness :
  exists df,
    rolling_win_pct sort_by_date (team_game_view late_streak) 1 10 = Return df
    /\ let shown := filter (fun x => in_range 20 40 (TG.date (fst x))) df in
       Ref.render_tab late_streak "tab-trend" 1 10 20 40
       = ([], Return (TrendView (map (fun x => (TG.date (fst x), snd x)) shown)
                                (length shown)))
       /\ Permutation (map fst shown)
            (filter (fun r => (TG.team_id r =? 1) && in_range 20 40 (TG.date r))
                    (team_game_view late_streak))
       /\ StronglySorted Z.le (map (fun x => TG.date (fst x)) shown)
       /\ forall x q, In x shown -> snd x = Some q -> (0 <= q <= 1)%Q.
Proof.
  apply (trend_tab_view Ref.F Q Ref.fit Ref.predict_proba Ref.coef_ Ref.roc_auc_score
           sort_by_date late_streak Ref.ABBR_BY_ID 1 10 20 40).
  - exact sort_by_date_sorts.
  - lia.
Defined.

(** ** The model feature r10 *)

Lemma nth_error_transform_from {A B : Type} (key col : A -> Z)
    (f : list Z -> list (option B)) (rows rest : list A) (p0 i : nat) (r : A) :
  nth_error rest i = Some r ->
  nth_error (transform_from key col f rows p0 rest) i
  = Some (transform_at key col f rows (p0 + i) r).
Proof.
  revert p0 i. induction rest as [|y rest IH]; intros p0 [|i] H; try discriminate.
  - cbn in H. inversion H; subst. cbn. rewrite Nat.add_0_r. reflexivity.
  - cbn in H. cbn [transform_from nth_error]. rewrite (IH (S p0) i H).
    do 2 f_equal. lia.
Qed.

Lemma firstn_split_at {A : Type} (l : list A) (p : nat) (x : A) :
  nth_error l p = Some x -> firstn (S p) l = firstn p l ++ [x].
Proof.
  revert p. induction l as [|y l IH]; intros [|p] H; try discriminate.
  - cbn in H. inversion H. reflexivity.
  - cbn in H. change (firstn (S (S p)) (y :: l)) with (y :: firstn (S p) l).
    change (firstn (S p) (y :: l)) with (y :: firstn p l).
    rewrite (IH p H). reflexivity.
Qed.

Lemma filter_firstn_prefix {A : Type} (f : A -> bool) (l : list A) (p : nat) :
  filter f (firstn p l) = firstn (length (filter f (firstn p l))) (filter f l).
Proof.
  rewrite <- (firstn_skipn p l) at 3. rewrite filter_app.
  rewrite firstn_app, Nat.sub_diag, firstn_all. cbn [firstn]. rewrite app_nil_r.
  reflexivity.
Qed.

(** The r10 of the row at position [p] of [tg] is the rolling mean, over
    the wins of that row's team, at the rank of the row among them. *)
Lemma with_r10_value (TEAM_GAMES : list TG.t) (p : nat) (x : TG.t) (v : option Q) :
  nth_error (with_r10 TEAM_GAMES) p = Some (x, v) ->
  let tg := stable_sort team_date_leb TEAM_GAMES in
  let same := fun r => TG.team_id r =? TG.team_id x in
  nth_error tg p = Some x
  /\ v = mean_at (mkRolling (map TG.win (filter same tg)) 10 5)
                 (length (filter same (firstn p tg)))
  /\ firstn (S (length (filter same (firstn p tg)))) (filter same tg)
     = filter same (firstn (S p) tg).
Proof.
  intros H tg same. unfold with_r10 in H. fold tg in H.
  apply nth_error_combine in H. destruct H as [Hx Hv].
  unfold groupby_transform in Hv.
  rewrite (nth_error_transform_from _ _ _ tg tg 0 p x Hx) in Hv.
  inversion Hv as [Hv']. clear Hv. cbn [Nat.add].
  unfold transform_at, group. fold same.
  set (rank := length (filter same (firstn p tg))).
  assert (Hself : same x = true) by (unfold same; apply Z.eqb_refl).
  assert (Hupto : filter same (firstn (S p) tg) = filter same (firstn p tg) ++ [x]).
  { rewrite (firstn_split_at tg p x Hx), filter_app. cbn [filter].
    rewrite Hself. reflexivity. }
  assert (Hprefix : firstn (S rank) (filter same tg) = filter same (firstn (S p) tg)).
  { rewrite (filter_firstn_prefix same tg (S p)). rewrite Hupto, length_app.
    cbn [length]. fold rank. f_equal. lia. }
  assert (Hrank : (rank < length (filter same tg))%nat).
  { apply (f_equal (@length TG.t)) in Hprefix.
    rewrite length_firstn, Hupto, length_app in Hprefix.
    cbn [length] in Hprefix. fold rank in Hprefix. lia. }
  split; [exact Hx|]. split; [|exact Hprefix].
  unfold rolling_10_5_mean.
  apply nth_error_nth. apply nth_error_mean. cbn [obj]. rewrite length_map. exact Hrank.
Qed.

(** X2: the rolling form that the dataset builder gives a team-game row
    is computed from that team's rows at or before it in (team, date)
    order only, the row itself included: it is absent while they number
    fewer than 5, and otherwise the mean of the win flag over the last 10
    of them (or all, if fewer). *)
Theorem r10_same_team_history (TEAM_GAMES : list TG.t) (p : nat) (x : TG.t)
    (v : option Q) :
  nth_error (with_r10 TEAM_GAMES) p = Some (x, v) ->
  let tg := stable_sort team_date_leb TEAM_GAMES in
  let mine := map TG.win
                (filter (fun r => TG.team_id r =? TG.team_id x) (firstn (S p) tg)) in
  nth_error tg p = Some x
  /\ v = if (length mine <? 5)%nat then None
         else Some (Qmake (sumZ (tail 10 mine))
                          (Z.to_pos (Z.of_nat (length (tail 10 mine))))).
Proof.
  intros H tg mine.
  destruct (with_r10_value TEAM_GAMES p x v H) as [Hx [Hv Hprefix]].
  fold tg in Hx, Hv, Hprefix. split; [exact Hx|].
  set (same := fun r => TG.team_id r =? TG.team_id x) in *.
  set (rank := length (filter same (firstn p tg))) in *.
  assert (Hmine : firstn (S rank) (map TG.win (filter same tg)) = mine).
  { rewrite firstn_map, Hprefix. reflexivity. }
  assert (Hlen : length mine = S rank).
  { unfold mine. rewrite length_map. fold same. rewrite <- Hprefix.
    rewrite length_firstn.
    assert (Hrank : (rank < length (filter same tg))%nat).
    { destruct (Nat.lt_ge_cases rank (length (filter same tg))) as [Hlt|Hge];
        [exact Hlt|].
      exfalso. apply (f_equal (@length TG.t)) in Hprefix.
      rewrite length_firstn, (firstn_split_at tg p x Hx), filter_app, length_app
        in Hprefix.
      cbn [filter] in Hprefix.
      replace (same x) with true in Hprefix by (unfold same; symmetry; apply Z.eqb_refl).
      cbn [length] in Hprefix. fold rank in Hprefix. lia. }
    lia. }
  rewrite Hv. unfold mean_at. cbn [obj window min_periods].
  unfold window_at. rewrite Hmine.
  replace (window_start 10 rank) with (length mine - 10)%nat
    by (unfold window_start; lia).
  fold (tail 10 mine).
  assert (Htail : length (tail 10 mine) = Nat.min 10 (length mine)).
  { unfold tail. rewrite length_skipn. lia. }
  destruct (Nat.ltb_spec (length mine) 5).
  - destruct (Z.leb_spec 5 (Z.of_nat (length (tail 10 mine)))); [lia | reflexivity].
  - destruct (Z.leb_spec 5 (Z.of_nat (length (tail 10 mine)))); [|lia].
    destruct (Z.ltb_spec 0 (Z.of_nat (length (tail 10 mine)))); [reflexivity | lia].
Qed.

Lemma r10_same_team_history_witness :
  exists x v,
    nth_error (with_r10 (team_game_view late_streak)) 8 = Some (x, v)
    /\ let tg := stable_sort team_date_leb (team_game_view late_streak) in
       let mine := map TG.win
                     (filter (fun r => TG.team_id r =? TG.team_id x) (firstn 9 tg)) in
       nth_error tg 8 = Some x
       /\ v = if (length mine <? 5)%nat then None
              else Some (Qmake (sumZ (tail 10 mine))
                               (Z.to_pos (Z.of_nat (length (tail 10 mine))))).
Proof.
  destruct (nth_error (with_r10 (team_game_view late_streak)) 8) as [[x v]|] eqn:E.
  - exists x, v. split; [reflexivity|].
    exact (r10_same_team_history (team_game_view late_streak) 8 x v E).
  - vm_compute in E. discriminate.
Defined.

Lemma with_r10_unit_interval (games : list Game.t) (x : TG.t) (q : Q) :
  In (x, Some q) (with_r10 (team_game_view games)) -> (0 <= q <= 1)%Q.
Proof.
  intros Hin. apply In_nth_error in Hin. destruct Hin as [p Hp].
  destruct (with_r10_value (team_game_view games) p x (Some q) Hp) as [_ [Hv _]].
  symmetry in Hv. apply (mean_at_unit_interval _ _ q) in Hv; [exact Hv|].
  cbn [obj]. apply Forall_forall. intros w Hw.
  apply in_map_iff in Hw. destruct Hw as [r [<- Hr]].
  apply filter_In in Hr. destruct Hr as [Hr _].
  apply (Permutation_in _ (Permutation_sym (stable_sort_perm team_date_leb _))) in Hr.
  pose proof (team_game_view_flags games) as Hflags.
  rewrite Forall_forall in Hflags. apply Hflags. apply in_map. exact Hr.
Qed.

(** X3: every row of the home-win dataset has its two rolling forms
    between 0 and 1, hence a feature [r10_diff] between -1 and 1; its
    home-field column is the constant 1, and its label is 1 exactly when
    the home side scored more, 0 otherwise (a drawn game counts as a home
    loss). *)
Theorem home_ds_row_ranges (GAMES : list Game.t) (r : DS.t) :
  In r (HOME_DS GAMES) ->
  (exists h a,
     DS.home_r10 r = Some h /\ DS.away_r10 r = Some a
     /\ (0 <= h <= 1)%Q /\ (0 <= a <= 1)%Q)
  /\ (-1 <= DS.r10_diff r <= 1)%Q
  /\ DS.is_home r = 1
  /\ (DS.home_win r = 1 <-> DS.home_score r > DS.away_score r)
  /\ (DS.home_win r = 0 <-> DS.home_score r <= DS.away_score r).
Proof.
  unfold HOME_DS, build_home_win_dataset, dropna_r10, TEAM_GAMES. intros Hr.
  apply filter_In in Hr. destruct Hr as [Hr Hpresent].
  apply in_map_iff in Hr. destruct Hr as [[[g oh] oa] [<- Hm]].
  cbn [derive fst snd DS.home_r10 DS.away_r10 DS.r10_diff DS.is_home DS.home_win
       DS.home_score DS.away_score] in *.
  destruct oh as [h|]; [|discriminate]. destruct oa as [a|]; [|discriminate].
  apply in_merge_left in Hm. destruct Hm as [Hm [sa [Hsa [_ Hva]]]].
  apply in_merge_left in Hm. destruct Hm as [_ [sh [Hsh [_ Hvh]]]].
  apply in_side_frame in Hsh. destruct Hsh as [[xh vh] [Hxh [_ <-]]].
  apply in_side_frame in Hsa. destruct Hsa as [[xa va] [Hxa [_ <-]]].
  cbn [side_row side_r10 snd] in Hvh, Hva. subst vh va.
  pose proof (with_r10_unit_interval GAMES xh h Hxh) as Hh.
  pose proof (with_r10_unit_interval GAMES xa a Hxa) as Ha.
  split; [exists h, a; auto|]. cbn [fillna].
  split; [split; lra|]. split; [reflexivity|].
  unfold gt_int. destruct (Z.ltb_spec (Game.away_score g) (Game.home_score g));
    split; split; intros; lia.
Qed.

Lemma home_ds_row_ranges_witness :
  (exists h a,
     DS.home_r10 day5_row = Some h /\ DS.away_r10 day5_row = Some a
     /\ (0 <= h <= 1)%Q /\ (0 <= a <= 1)%Q)
  /\ (-1 <= DS.r10_diff day5_row <= 1)%Q
  /\ DS.is_home day5_row = 1
  /\ (DS.home_win day5_row = 1 <-> DS.home_score day5_row > DS.away_score day5_row)
  /\ (DS.home_win day5_row = 0 <-> DS.home_score day5_row <= DS.away_score day5_row).
Proof.
  apply (home_ds_row_ranges late_streak day5_row).
  vm_compute. left. reflexivity.
Defined.

(** ** The joins of the dataset builder *)

Lemma filter_narrow {A : Type} (p q : A -> bool) (l : list A) :
  (forall x, p x = true -> q x = true) -> filter p l = filter p (filter q l).
Proof.
  intros Hpq. induction l as [|x l IH]; [reflexivity|].
  cbn [filter]. destruct (q x) eqn:Eq; cbn [filter].
  - destruct (p x); rewrite IH; reflexivity.
  - destruct (p x) eqn:Ep; [rewrite (Hpq x Ep) in Eq; discriminate | exact IH].
Qed.

Lemma merge_left_single {L R V : Type} (on : L -> R -> bool) (val : R -> option V)
    (f : L -> option V) (left : list L) (right : list R) :
  (forall l, In l left -> exists r, filter (on l) right = [r] /\ val r = f l) ->
  merge_left on val left right = map (fun l => (l, f l)) left.
Proof.
  unfold merge_left. induction left as [|l left IH]; intros H; [reflexivity|].
  cbn [flat_map map]. rewrite IH by (intros l' Hl'; apply H; right; exact Hl').
  destruct (H l (or_introl eq_refl)) as [r [Hr Hv]].
  unfold merge_row. rewrite Hr. cbn [map app]. rewrite Hv. reflexivity.
Qed.

(** With one row per game id, a side frame holds exactly one row for a
    game of [GAMES]: the row of its view on that side. *)
Lemma side_frame_row (GAMES : list Game.t) (side : Z) (view : Game.t -> TG.t)
    (g : Game.t) :
  side = 1 \/ side = 0 ->
  (forall g', TG.game_id (view g') = Game.game_id g' /\ TG.is_home (view g') = side) ->
  filter (fun r => TG.is_home r =? side) (team_game_view GAMES) = map view GAMES ->
  NoDup (map Game.game_id GAMES) ->
  In g GAMES ->
  let tg := with_r10 (team_game_view GAMES) in
  let v := r10_at tg side (Game.game_id g) in
  In (view g, v) tg
  /\ filter (fun s => side_game_id s =? Game.game_id g)
            (map side_row (filter (fun x => TG.is_home (fst x) =? side) tg))
     = [side_row (view g, v)].
Proof.
  intros Hside Hview Hframe Hnd Hg tg v.
  assert (Hx : exists x, In x tg /\ fst x = view g).
  { assert (Hin : In (view g) (map fst tg)).
    { unfold tg. rewrite map_fst_with_r10.
      apply (Permutation_in _ (stable_sort_perm team_date_leb (team_game_view GAMES))).
      assert (H : In (view g) (filter (fun r => TG.is_home r =? side)
                                      (team_game_view GAMES)))
        by (rewrite Hframe; apply in_map; exact Hg).
      apply filter_In in H. exact (proj1 H). }
    apply in_map_iff in Hin. destruct Hin as [x [Hfst Hin]]. exists x. auto. }
  destruct Hx as [[r w] [Hin Hr]]. cbn [fst] in Hr. subst r.
  destruct (Hview g) as [Hid Hhome].
  set (frame := map side_row (filter (fun x => TG.is_home (fst x) =? side) tg)).
  assert (Hrow : In (side_row (view g, w)) frame).
  { unfold frame. apply in_map. apply filter_In. split; [exact Hin|].
    cbn [fst]. rewrite Hhome. apply Z.eqb_refl. }
  assert (Hone : filter (fun s => side_game_id s =? Game.game_id g) frame
                 = [side_row (view g, w)]).
  { pose proof (filter_key_unique side_game_id frame (side_row (view g, w))
                  (side_frame_ids GAMES side Hside Hnd) Hrow) as H.
    cbn [side_row side_game_id fst] in H. rewrite Hid in H. exact H. }
  assert (Hv : v = w).
  { unfold v, r10_at.
    destruct (find (fun x => (TG.is_home (fst x) =? side)
                             && (TG.game_id (fst x) =? Game.game_id g)) tg)
      as [y|] eqn:E.
    - apply find_some in E. destruct E as [Hy Hp].
      apply andb_true_iff in Hp. destruct Hp as [Hp1 Hp2].
      assert (Hin' : In (side_row y)
                        (filter (fun s => side_game_id s =? Game.game_id g) frame)).
      { apply filter_In. split.
        - unfold frame. apply in_map. apply filter_In. split; assumption.
        - exact Hp2. }
      rewrite Hone in Hin'. destruct Hin' as [Heq|[]].
      apply (f_equal side_r10) in Heq. cbn [side_row side_r10 snd] in Heq.
      symmetry. exact Heq.
    - pose proof (find_none _ _ E _ Hin) as Hp. cbn [fst] in Hp.
      rewrite Hhome, Hid, !Z.eqb_refl in Hp. discriminate. }
  rewrite Hv. split; [exact Hin | exact Hone].
Qed.

Lemma home_view_keys (g : Game.t) :
  TG.game_id (home_view g) = Game.game_id g /\ TG.is_home (home_view g) = 1.
Proof. split; reflexivity. Qed.

Lemma away_view_keys (g : Game.t) :
  TG.game_id (away_view g) = Game.game_id g /\ TG.is_home (away_view g) = 0.
Proof. split; reflexivity. Qed.

(** X4: with one row per game id in [GAMES], the two joins of the
    dataset builder neither repeat nor reorder games, and the last step
    drops a game exactly when one of its two rolling forms is absent: the
    dataset is the games frame, in its order, restricted to the games
    that have both forms, each game with the form of its own home row
    and of its own away row in the team-game frame. *)
Theorem home_ds_subframe (GAMES : list Game.t) :
  NoDup (map Game.game_id GAMES) ->
  let tg := with_r10 (team_game_view GAMES) in
  let home_r10 g := r10_at tg 1 (Game.game_id g) in
  let away_r10 g := r10_at tg 0 (Game.game_id g) in
  HOME_DS GAMES
  = map (fun g => derive (g, home_r10 g, away_r10 g))
        (filter (fun g => notna (home_r10 g) && notna (away_r10 g)) GAMES)
  /\ forall g, In g GAMES ->
       In (home_view g, home_r10 g) tg /\ In (away_view g, away_r10 g) tg.
Proof.
  intros Hnd tg home_r10 away_r10.
  assert (Hhome : forall g, In g GAMES ->
            In (home_view g, home_r10 g) tg
            /\ filter (fun s => side_game_id s =? Game.game_id g)
                 (map side_row (filter (fun x => TG.is_home (fst x) =? 1) tg))
               = [side_row (home_view g, home_r10 g)]).
  { intros g Hg. exact (side_frame_row GAMES 1 home_view g (or_introl eq_refl)
                          home_view_keys (filter_view_home GAMES) Hnd Hg). }
  assert (Haway : forall g, In g GAMES ->
            In (away_view g, away_r10 g) tg
            /\ filter (fun s => side_game_id s =? Game.game_id g)
                 (map side_row (filter (fun x => TG.is_home (fst x) =? 0) tg))
               = [side_row (away_view g, away_r10 g)]).
  { intros g Hg. exact (side_frame_row GAMES 0 away_view g (or_intror eq_refl)
                          away_view_keys (filter_view_away GAMES) Hnd Hg). }
  split; [|intros g Hg; split; [exact (proj1 (Hhome g Hg)) | exact (proj1 (Haway g Hg))]].
  unfold HOME_DS, build_home_win_dataset, TEAM_GAMES. fold tg.
  rewrite (merge_left_single on_home side_r10 home_r10 GAMES).
  - rewrite (merge_left_single on_away side_r10 (fun m => away_r10 (fst m))).
    + rewrite !map_map. cbn [fst]. unfold dropna_r10. rewrite filter_map_comm.
      reflexivity.
    + intros m Hm. apply in_map_iff in Hm. destruct Hm as [g [<- Hg]]. cbn [fst].
      exists (side_row (away_view g, away_r10 g)). split; [|reflexivity].
      rewrite (filter_narrow _ (fun s => side_game_id s =? Game.game_id g)).
      * rewrite (proj2 (Haway g Hg)). cbn [filter]. unfold on_away.
        cbn [fst side_row side_game_id side_date side_team_id away_view
             TG.game_id TG.date TG.team_id]. rewrite !Z.eqb_refl. reflexivity.
      * intros s Hs. unfold on_away in Hs. cbn [fst] in Hs.
        apply andb_true_iff in Hs. destruct Hs as [Hs _].
        apply andb_true_iff in Hs. destruct Hs as [Hs _].
        rewrite Z.eqb_sym. exact Hs.
  - intros g Hg. exists (side_row (home_view g, home_r10 g)). split; [|reflexivity].
    rewrite (filter_narrow _ (fun s => side_game_id s =? Game.game_id g)).
    + rewrite (proj2 (Hhome g Hg)). cbn [filter]. unfold on_home.
      cbn [fst side_row side_game_id side_date side_team_id home_view
           TG.game_id TG.date TG.team_id]. rewrite !Z.eqb_refl. reflexivity.
    + intros s Hs. unfold on_home in Hs.
      apply andb_true_iff in Hs. destruct Hs as [Hs _].
      apply andb_true_iff in Hs. destruct Hs as [Hs _].
      rewrite Z.eqb_sym. exact Hs.
Qed.

Lemma home_ds_subframe_witness :
  let tg := with_r10 (team_game_view late_streak) in
  let home_r10 g := r10_at tg 1 (Game.game_id g) in
  let away_r10 g := r10_at tg 0 (Game.game_id g) in
  HOME_DS late_streak
  = map (fun g => derive (g, home_r10 g, away_r10 g))
        (filter (fun g => notna (home_r10 g) && notna (away_r10 g)) late_streak)
  /\ forall g, In g late_streak ->
       In (home_view g, home_r10 g) tg /\ In (away_view g, away_r10 g) tg.
Proof.
  exact (home_ds_subframe late_streak late_streak_ids).
Defined.

(** ** The table of the model tab *)

Lemma tail_map {A B : Type} (f : A -> B) (k : nat) (l : list A) :
  tail k (map f l) = map f (tail k l).
Proof. unfold tail. rewrite length_map, skipn_map. reflexivity. Qed.

Lemma map_snd_combine {A B : Type} (l : list A) (l' : list B) :
  length l = length l' -> map snd (combine l l') = l'.
Proof.
  revert l'. induction l as [|x l IH]; intros [|y l'] Hlen; try discriminate; [reflexivity|].
  cbn. f_equal. apply IH. cbn in Hlen. lia.
Qed.

(** X5: when the classifier is fit and the evaluation partition is
    scored, the model tab returns the fitted coefficients, the score, and
    a table of the last 20 evaluation rows (all of them if fewer), in
    date order, each with its own predicted probability and the
    abbreviations looked up for its two teams; if the vector of
    predictions has another length than the evaluation partition, the
    call raises a [ValueError] instead. *)
Theorem model_tab_table (F Model : Type)
    (fit : list (Q * Z) -> list Z -> result Model)
    (predict_proba : Model -> list (Q * Z) -> list F)
    (coef_ : Model -> list F)
    (roc_auc_score : list Z -> list F -> result F)
    (sort_values : list TG.t -> list TG.t)
    (GAMES : list Game.t) (ABBR_BY_ID : Z -> option string)
    (team_id window start end_ : Z) (m : Model) (a : F) :
  let rows := filter (fun r => in_range start end_ (DS.date r)) (HOME_DS GAMES) in
  let k := Z.to_nat (split_index (Z.of_nat (length rows))) in
  let train := firstn k rows in
  let eval := skipn k rows in
  let features := map (fun r => (DS.r10_diff r, DS.is_home r)) in
  let proba := predict_proba m (features eval) in
  let out := snd (render_tab F Model fit predict_proba coef_ roc_auc_score sort_values
                             GAMES ABBR_BY_ID "tab-model" team_id window start end_) in
  50 <= Z.of_nat (length rows) ->
  fit (features train) (map DS.home_win train) = Return m ->
  roc_auc_score (map DS.home_win eval) proba = Return a ->
  (length proba = length eval ->
   exists tbl,
     out = Return (ModelView (coef_ m) a tbl)
     /\ length tbl = Nat.min 20 (length eval)
     /\ map (test_row F) tbl = tail 20 eval
     /\ map (pred_home_win F) tbl = tail 20 proba
     /\ forall row, In row tbl ->
          home F row = ABBR_BY_ID (DS.home_team_id (test_row F row))
          /\ away F row = ABBR_BY_ID (DS.away_team_id (test_row F row)))
  /\ (length proba <> length eval ->
      out = Raise (ValueError "Length of values does not match length of index")).
Proof.
  intros rows k train eval features proba out Hn Hfit Hauc. unfold out.
  rewrite (model_tab_run F Model fit predict_proba coef_ roc_auc_score sort_values
             GAMES ABBR_BY_ID team_id window start end_ Hn).
  fold rows. fold k. fold train eval. cbv zeta.
  change (map (fun r : DS.t => (DS.r10_diff r, DS.is_home r)) train) with (features train).
  change (map (fun r : DS.t => (DS.r10_diff r, DS.is_home r)) eval) with (features eval).
  rewrite Hfit. fold proba. rewrite Hauc. unfold assign_proba. split.
  - intros Hlen. destruct (Nat.eqb_spec (length proba) (length eval)); [|contradiction].
    cbn [snd]. eexists. split; [reflexivity|]. unfold test_table.
    split; [|split; [|split]].
    + unfold tail. rewrite length_skipn, length_map, length_combine. lia.
    + rewrite tail_map, map_map. cbn [test_row]. rewrite <- tail_map.
      rewrite map_fst_combine by lia. reflexivity.
    + rewrite tail_map, map_map. cbn [pred_home_win]. rewrite <- tail_map.
      rewrite map_snd_combine by lia. reflexivity.
    + intros row Hrow. unfold tail in Hrow.
      assert (Hin : In row (map (fun x : DS.t * F =>
                      mkTestRow F (fst x) (snd x)
                        (ABBR_BY_ID (DS.home_team_id (fst x)))
                        (ABBR_BY_ID (DS.away_team_id (fst x)))) (combine eval proba))).
      { revert Hrow. generalize (length (map (fun x : DS.t * F =>
                      mkTestRow F (fst x) (snd x)
                        (ABBR_BY_ID (DS.home_team_id (fst x)))
                        (ABBR_BY_ID (DS.away_team_id (fst x)))) (combine eval proba)) - 20)%nat.
        intros j Hrow. rewrite <- (firstn_skipn j). apply in_or_app. right. exact Hrow. }
      apply in_map_iff in Hin. destruct Hin as [x [<- _]]. split; reflexivity.
  - intros Hlen. destruct (Nat.eqb_spec (length proba) (length eval)); [contradiction|].
    reflexivity.
Qed.

Lemma model_tab_table_witness :
  exists tbl,
    snd (Ref.render_tab (season Nat.odd 60) "tab-model" 1 10 0 100)
    = Return (ModelView (Ref.coef_ (Qmake 1 2)) (Some (Qmake 1 2)) tbl)
    /\ length tbl = 12%nat.
Proof.
  destruct (model_tab_table Ref.F Q Ref.fit Ref.predict_proba Ref.coef_ Ref.roc_auc_score
              sort_by_date (season Nat.odd 60) Ref.ABBR_BY_ID 1 10 0 100
              (Qmake 1 2) (Some (Qmake 1 2))) as [H _].
  - apply Z.leb_le. vm_compute. reflexivity.
  - vm_compute. reflexivity.
  - vm_compute. reflexivity.
  - destruct H as [tbl [H1 [H2 _]]]; [vm_compute; reflexivity|].
    exists tbl. split; [exact H1|]. rewrite H2. vm_compute. reflexivity.
Defined.

(** * Properties of the loaders *)

(** ** Inserting with a conflict clause *)

Section OnConflictFacts.
Context {R : Type} (key : R -> Z) (do_update : R -> R -> R).
Hypothesis update_key : forall old excluded, key (do_update old excluded) = key old.

Let conflicts (a b : R) : bool := key a =? key b.
Let row_of (k : Z) (t : list R) : option R := find (fun r => key r =? k) t.

Lemma insert_on_conflict_same (e : R) (t : list R) :
  row_of (key e) (insert_on_conflict conflicts do_update e t)
  = Some (match row_of (key e) t with
          | Some old => do_update old e
          | None => e
          end).
Proof using update_key.
  unfold row_of. induction t as [|r t IH]; cbn [insert_on_conflict find].
  - rewrite Z.eqb_refl. reflexivity.
  - unfold conflicts at 1. destruct (Z.eqb_spec (key r) (key e)) as [E|E].
    + cbn [find]. rewrite update_key, E, Z.eqb_refl. reflexivity.
    + cbn [find]. destruct (Z.eqb_spec (key r) (key e)); [contradiction|]. exact IH.
Qed.

Lemma insert_on_conflict_other (e : R) (t : list R) (k : Z) :
  k <> key e ->
  row_of k (insert_on_conflict conflicts do_update e t) = row_of k t.
Proof using update_key.
  intros Hk. unfold row_of. induction t as [|r t IH]; cbn [insert_on_conflict find].
  - destruct (Z.eqb_spec (key e) k); [congruence | reflexivity].
  - unfold conflicts at 1. destruct (Z.eqb_spec (key r) (key e)) as [E|E].
    + cbn [find]. rewrite update_key.
      destruct (Z.eqb_spec (key r) k); [congruence | reflexivity].
    + cbn [find]. destruct (key r =? k); [reflexivity | exact IH].
Qed.

Lemma insert_on_conflict_keys (e : R) (t : list R) :
  map key (insert_on_conflict conflicts do_update e t)
  = if existsb (fun r => key r =? key e) t then map key t else map key t ++ [key e].
Proof using update_key.
  induction t as [|r t IH]; cbn [insert_on_conflict existsb map]; [reflexivity|].
  unfold conflicts at 1. destruct (Z.eqb_spec (key r) (key e)) as [E|E].
  - cbn [orb map]. rewrite update_key. reflexivity.
  - cbn [orb map]. rewrite IH.
    destruct (existsb (fun r0 => key r0 =? key e) t); reflexivity.
Qed.

Lemma insert_on_conflict_nodup (e : R) (t : list R) :
  NoDup (map key t) -> NoDup (map key (insert_on_conflict conflicts do_update e t)).
Proof using update_key.
  intros Hnd. rewrite insert_on_conflict_keys.
  destruct (existsb (fun r => key r =? key e) t) eqn:E; [exact Hnd|].
  apply NoDup_app; [exact Hnd | repeat constructor; intros [] |].
  intros k Hk [<-|[]].
  apply in_map_iff in Hk. destruct Hk as [r [Hr Hin]].
  assert (existsb (fun r0 => key r0 =? key e) t = true); [|congruence].
  apply existsb_exists. exists r. split; [exact Hin | apply Z.eqb_eq; exact Hr].
Qed.

Lemma insert_on_conflict_length (e : R) (t : list R) :
  length (insert_on_conflict conflicts do_update e t)
  = if existsb (fun r => key r =? key e) t then length t else S (length t).
Proof using update_key.
  rewrite <- (length_map key), insert_on_conflict_keys.
  destruct (existsb (fun r => key r =? key e) t);
    [|rewrite length_app, Nat.add_comm]; rewrite length_map; reflexivity.
Qed.
End OnConflictFacts.

Lemma insert_on_conflict_twice {R : Type} (key : R -> Z) (do_update : R -> R -> R)
    (e : R) (t : list R) :
  (forall old excluded, key (do_update old excluded) = key old) ->
  do_update e e = e ->
  (forall old, do_update (do_update old e) e = do_update old e) ->
  insert_on_conflict (fun a b => key a =? key b) do_update e
    (insert_on_conflict (fun a b => key a =? key b) do_update e t)
  = insert_on_conflict (fun a b => key a =? key b) do_update e t.
Proof.
  intros Hkey Hself Hagain. induction t as [|r t IH]; cbn [insert_on_conflict].
  - rewrite Z.eqb_refl, Hself. reflexivity.
  - destruct (Z.eqb_spec (key r) (key e)) as [E|E]; cbn [insert_on_conflict].
    + rewrite Hkey. destruct (Z.eqb_spec (key r) (key e)); [|contradiction].
      rewrite Hagain. reflexivity.
    + destruct (Z.eqb_spec (key r) (key e)); [contradiction|]. rewrite IH. reflexivity.
Qed.

Lemma insert_on_conflict_in {R : Type} (conflicts : R -> R -> bool)
    (do_update : R -> R -> R) (e r : R) (t : list R) :
  In r t ->
  In r (insert_on_conflict conflicts do_update e t)
  \/ In (do_update r e) (insert_on_conflict conflicts do_update e t).
Proof.
  induction t as [|x t IH]; intros Hin; [contradiction|].
  cbn [insert_on_conflict]. destruct (conflicts x e) eqn:E.
  - destruct Hin as [->|Hin].
    + right. left. reflexivity.
    + left. right. exact Hin.
  - destruct Hin as [->|Hin].
    + left. left. reflexivity.
    + destruct (IH Hin) as [H|H]; [left | right]; right; exact H.
Qed.

Lemma coalesce_twice {A : Type} (a b : option A) :
  coalesce a (coalesce a b) = coalesce a b.
Proof. destruct a; reflexivity. Qed.

Lemma coalesce_self {A : Type} (a : option A) : coalesce a a = a.
Proof. destruct a; reflexivity. Qed.

(** ** The games table *)

(** X6: after [upsert_game], the table has exactly one row more when the
    game id was new and the same number otherwise, game ids stay unique,
    every other game is untouched, and the row of the game carries the
    new date, teams and venue; each score is the new one unless that is
    NULL, in which case the score already stored (if any) is kept. *)
Theorem upsert_game_lookup (cur : list Games.row) (pk : Z) (gdate : string)
    (home_id away_id : Z) (home away : option Z) (park : string) :
  let cur' := Games.upsert_game cur pk gdate home_id away_id home away park in
  let stored (score : Games.row -> option Z) :=
    match Games.lookup cur pk with
    | Some old => score old
    | None => None
    end in
  Games.lookup cur' pk
  = Some (Games.mk pk gdate home_id away_id
                   (coalesce home (stored Games.home_score))
                   (coalesce away (stored Games.away_score)) park)
  /\ (forall k, k <> pk -> Games.lookup cur' k = Games.lookup cur k)
  /\ (NoDup (map Games.game_id cur) -> NoDup (map Games.game_id cur'))
  /\ length cur' = match Games.lookup cur pk with
                   | Some _ => length cur
                   | None => S (length cur)
                   end.
Proof.
  intros cur' stored.
  set (e := Games.mk pk gdate home_id away_id home away park).
  assert (Hkey : forall old excluded,
             Games.game_id (Games.do_update old excluded) = Games.game_id old)
    by reflexivity.
  split; [|split; [|split]].
  - pose proof (insert_on_conflict_same Games.game_id Games.do_update Hkey e cur) as H.
    change (Games.game_id e) with pk in H.
    unfold cur', Games.lookup, Games.upsert_game. fold e.
    change Games.same_game with (fun a b => Games.game_id a =? Games.game_id b).
    rewrite H. unfold stored, Games.lookup.
    destruct (find (fun r => Games.game_id r =? pk) cur) as [old|] eqn:E.
    + apply find_some in E. destruct E as [_ E]. apply Z.eqb_eq in E.
      unfold Games.do_update. rewrite E. reflexivity.
    + unfold e. destruct home, away; reflexivity.
  - intros k Hk. unfold cur', Games.lookup, Games.upsert_game. fold e.
    apply (insert_on_conflict_other Games.game_id Games.do_update Hkey e cur k).
    exact Hk.
  - unfold cur', Games.upsert_game. fold e.
    apply (insert_on_conflict_nodup Games.game_id Games.do_update Hkey e cur).
  - pose proof (insert_on_conflict_length Games.game_id Games.do_update Hkey e cur) as Hl.
    change (Games.game_id e) with pk in Hl.
    unfold cur', Games.upsert_game. fold e.
    change Games.same_game with (fun a b => Games.game_id a =? Games.game_id b).
    rewrite Hl. clear Hl. unfold Games.lookup.
    destruct (find (fun r => Games.game_id r =? pk) cur) as [old|] eqn:E.
    + apply find_some in E.
      assert (H : existsb (fun r => Games.game_id r =? pk) cur = true)
        by (apply existsb_exists; exists old; exact E).
      rewrite H. reflexivity.
    + destruct (existsb (fun r => Games.game_id r =? pk) cur) eqn:H; [|reflexivity].
      apply existsb_exists in H. destruct H as [r [Hr Hk]].
      rewrite (find_none _ _ E r Hr) in Hk. discriminate.
Qed.

(** X7: repeating an [upsert_game] call with the same arguments leaves
    the table as the first call left it. *)
Theorem upsert_game_idempotent (cur : list Games.row) (pk : Z) (gdate : string)
    (home_id away_id : Z) (home away : option Z) (park : string) :
  Games.upsert_game (Games.upsert_game cur pk gdate home_id away_id home away park)
                    pk gdate home_id away_id home away park
  = Games.upsert_game cur pk gdate home_id away_id home away park.
Proof.
  unfold Games.upsert_game.
  apply (insert_on_conflict_twice Games.game_id Games.do_update).
  - reflexivity.
  - unfold Games.do_update. cbn. rewrite !coalesce_self. reflexivity.
  - intros old. unfold Games.do_update. cbn. rewrite !coalesce_twice. reflexivity.
Qed.

Lemma upsert_row_keeps_completed (cur : list Games.row) (e : Games.row) (pk : Z) :
  In pk (map Games.game_id (filter Games.completed cur)) ->
  In pk (map Games.game_id (filter Games.completed (Games.upsert_row cur e))).
Proof.
  intros Hin. apply in_map_iff in Hin. destruct Hin as [r [<- Hr]].
  apply filter_In in Hr. destruct Hr as [Hr Hc].
  unfold Games.upsert_row, Games.upsert_game.
  destruct (insert_on_conflict_in Games.same_game Games.do_update
              (Games.mk (Games.game_id e) (Games.date e) (Games.home_team_id e)
                        (Games.away_team_id e) (Games.home_score e)
                        (Games.away_score e) (Games.venue e)) r cur Hr) as [H|H].
  - apply in_map_iff. exists r. split; [reflexivity|]. apply filter_In. auto.
  - apply in_map_iff. eexists. split; [|apply filter_In; split; [exact H|]].
    + reflexivity.
    + unfold Games.completed in *. cbn.
      destruct (Games.home_score r); [|discriminate].
      destruct (Games.away_score r); [|discriminate].
      destruct (Games.home_score e), (Games.away_score e); reflexivity.
Qed.

(** X8: a game that the dashboard selects as completed (both scores
    stored) is still completed after any run of [upsert_game] calls:
    loading a schedule in which the game has no score yet does not take
    it out of the dashboard's data. *)
Theorem completed_games_stay (calls cur : list Games.row) (pk : Z) :
  In pk (map Games.game_id (filter Games.completed cur)) ->
  In pk (map Games.game_id (filter Games.completed (Games.upsert_all cur calls))).
Proof.
  unfold Games.upsert_all. revert cur.
  induction calls as [|e calls IH]; intros cur Hin; [exact Hin|].
  cbn [fold_left]. apply IH. apply upsert_row_keeps_completed. exact Hin.
Qed.

Lemma completed_games_stay_witness :
  In 745001 (map Games.game_id
    (filter Games.completed
       (Games.upsert_all sample_games_table
          [Games.mk 745001 "2024-06-01" 119 137 None None "Dodger Stadium";
           Games.mk 745003 "2024-06-03" 119 137 None None "Dodger Stadium"]))).
Proof.
  apply completed_games_stay. vm_compute. left. reflexivity.
Defined.

(** ** The teams table *)

(** X9: [load_teams] never changes a team that is already stored: after
    inserting a list of teams, the row of a team id is the row the table
    had for it before, or, if it had none, the first entry of the list
    with that id (later entries with the same id are ignored); an id that
    is in neither stays absent. *)
Theorem load_teams_first_write_wins (table teams : list Teams.row) (id : Z) :
  Teams.lookup (Teams.load_teams table teams) id
  = match Teams.lookup table id with
    | Some stored => Some stored
    | None => find (fun r => Teams.team_id r =? id) teams
    end.
Proof.
  unfold Teams.load_teams. revert table.
  induction teams as [|t teams IH]; intros table; cbn [fold_left find].
  - destruct (Teams.lookup table id); reflexivity.
  - rewrite IH. clear IH.
    assert (Hkey : forall old excluded : Teams.row,
               Teams.team_id ((fun o _ : Teams.row => o) old excluded) = Teams.team_id old)
      by reflexivity.
    unfold Teams.lookup, Teams.insert_team.
    change Teams.same_team with (fun a b => Teams.team_id a =? Teams.team_id b).
    destruct (Z.eqb_spec (Teams.team_id t) id) as [E|E].
    + subst id.
      rewrite (insert_on_conflict_same Teams.team_id (fun o _ => o) Hkey t table).
      destruct (find (fun r => Teams.team_id r =? Teams.team_id t) table); reflexivity.
    + rewrite (insert_on_conflict_other Teams.team_id (fun o _ => o) Hkey t table id)
        by congruence.
      reflexivity.
Qed.

(** ** The players table *)

Lemma players_update_key (f : Players.row -> Players.row -> Players.row) :
  (forall old excluded, Players.player_id (f old excluded) = Players.player_id old) ->
  forall (e : Players.row) (cur : list Players.row),
    Players.lookup (insert_on_conflict Players.same_player f e cur) (Players.player_id e)
    = Some (match Players.lookup cur (Players.player_id e) with
            | Some old => f old e
            | None => e
            end)
    /\ forall k, k <> Players.player_id e ->
         Players.lookup (insert_on_conflict Players.same_player f e cur) k
         = Players.lookup cur k.
Proof.
  intros Hkey e cur. unfold Players.lookup.
  change Players.same_player with (fun a b => Players.player_id a =? Players.player_id b).
  split.
  - apply (insert_on_conflict_same Players.player_id f Hkey e cur).
  - intros k Hk. apply (insert_on_conflict_other Players.player_id f Hkey e cur k Hk).
Qed.

Lemma upsert_min_player_row (cur : list Players.row) (pid : Z)
    (full_name : option string) (team : option Z) :
  let cur' := Players.upsert_min_player cur pid full_name team in
  Players.lookup cur' pid
  = Some (match Players.lookup cur pid with
          | Some old =>
            Players.mk pid (coalesce full_name (Players.name old))
                       (coalesce team (Players.team_id old))
                       (Players.position old) (Players.birthdate old)
          | None => Players.mk pid full_name team None None
          end)
  /\ forall k, k <> pid -> Players.lookup cur' k = Players.lookup cur k.
Proof.
  intros cur'. unfold cur', Players.upsert_min_player.
  set (e := Players.mk pid full_name team None None).
  set (f := fun old excluded : Players.row =>
              Players.mk (Players.player_id old)
                (coalesce (Players.name excluded) (Players.name old))
                (coalesce (Players.team_id excluded) (Players.team_id old))
                (Players.position old) (Players.birthdate old)).
  destruct (players_update_key f ltac:(reflexivity) e cur) as [H1 H2].
  change (Players.player_id e) with pid in H1, H2.
  split; [|exact H2]. rewrite H1.
  destruct (Players.lookup cur pid) as [old|] eqn:E; [|reflexivity].
  unfold Players.lookup in E. apply find_some in E. destruct E as [_ E].
  apply Z.eqb_eq in E. unfold f. rewrite E. reflexivity.
Qed.

(** X10: the statement of [upsert_min_player], which the box-score
    loaders run for every player they meet, never touches the position or
    the birthdate of a stored player and leaves all other players as they
    are; it replaces the stored name and team by the new ones unless the
    new value is NULL.  A player it meets first is stored with NULL
    position and birthdate. *)
Theorem upsert_min_player_keeps_profile (cur : list Players.row) (pid : Z)
    (full_name : option string) (team : option Z) :
  let cur' := Players.upsert_min_player cur pid full_name team in
  Players.lookup cur' pid
  = Some (match Players.lookup cur pid with
          | Some old =>
            Players.mk pid (coalesce full_name (Players.name old))
                       (coalesce team (Players.team_id old))
                       (Players.position old) (Players.birthdate old)
          | None => Players.mk pid full_name team None None
          end)
  /\ forall k, k <> pid -> Players.lookup cur' k = Players.lookup cur k.
Proof.
  exact (upsert_min_player_row cur pid full_name team).
Qed.

(** X11: the statement of [upsert_player], run for the active rosters,
    overwrites the stored name, team and position of the player with the
    new values (NULL included) and keeps the stored birthdate only when
    the new one is NULL; all other players are left as they are.  Run
    after it, [upsert_min_player] keeps that position and birthdate. *)
Theorem upsert_player_lookup (cur : list Players.row) (pid : Z)
    (full_name : option string) (team : option Z) (pos born : option string)
    (box_name : option string) (box_team : option Z) :
  let stored := match Players.lookup cur pid with
                | Some old => Players.birthdate old
                | None => None
                end in
  let cur' := Players.upsert_player cur pid full_name team pos born in
  Players.lookup cur' pid
  = Some (Players.mk pid full_name team pos (coalesce born stored))
  /\ (forall k, k <> pid -> Players.lookup cur' k = Players.lookup cur k)
  /\ Players.lookup (Players.upsert_min_player cur' pid box_name box_team) pid
     = Some (Players.mk pid (coalesce box_name full_name) (coalesce box_team team)
                        pos (coalesce born stored)).
Proof.
  intros stored cur'.
  assert (Hfirst : Players.lookup cur' pid
                   = Some (Players.mk pid full_name team pos (coalesce born stored))).
  { unfold cur', Players.upsert_player.
    set (e := Players.mk pid full_name team pos born).
    set (f := fun old excluded : Players.row =>
                Players.mk (Players.player_id old) (Players.name excluded)
                  (Players.team_id excluded) (Players.position excluded)
                  (coalesce (Players.birthdate excluded) (Players.birthdate old))).
    destruct (players_update_key f ltac:(reflexivity) e cur) as [H1 _].
    change (Players.player_id e) with pid in H1. rewrite H1. unfold stored.
    destruct (Players.lookup cur pid) as [old|] eqn:E.
    - unfold Players.lookup in E. apply find_some in E. destruct E as [_ E].
      apply Z.eqb_eq in E. unfold f. rewrite E. reflexivity.
    - unfold e. destruct born; reflexivity. }
  split; [exact Hfirst|]. split.
  - intros k Hk. unfold cur', Players.upsert_player.
    set (e := Players.mk pid full_name team pos born).
    set (f := fun old excluded : Players.row =>
                Players.mk (Players.player_id old) (Players.name excluded)
                  (Players.team_id excluded) (Players.position excluded)
                  (coalesce (Players.birthdate excluded) (Players.birthdate old))).
    destruct (players_update_key f ltac:(reflexivity) e cur) as [_ H2].
    apply H2. exact Hk.
  - destruct (upsert_min_player_row cur' pid box_name box_team) as [H _].
    cbv zeta in H. rewrite H, Hfirst. reflexivity.
Qed.

(** ** Innings pitched *)

Lemma str_partition_digits (u : Decimal.uint) (rest : string) :
  str_partition "." (NilEmpty.string_of_uint u ++ rest)
  = let '(head, found, tl) := str_partition "." rest in
    ((NilEmpty.string_of_uint u ++ head)%string, found, tl).
Proof.
  induction u as [|u IH|u IH|u IH|u IH|u IH|u IH|u IH|u IH|u IH|u IH];
    cbn [NilEmpty.string_of_uint String.append];
    [destruct (str_partition "." rest) as [[? ?] ?]; reflexivity | ..];
    cbn [str_partition]; rewrite IH;
    destruct (str_partition "." rest) as [[? ?] ?]; reflexivity.
Qed.

Lemma str_of_int_digits (n : Z) :
  0 <= n -> exists u, str_of_int n = NilEmpty.string_of_uint u.
Proof.
  intros Hn. unfold str_of_int. destruct n as [|p|p]; [| |lia].
  - exists (Decimal.D0 Decimal.Nil). reflexivity.
  - cbn [Z.to_int NilZero.string_of_int]. unfold NilZero.string_of_uint.
    destruct (Pos.to_uint p) eqn:E;
      [exists (Decimal.D0 Decimal.Nil); reflexivity | eexists; reflexivity ..].
Qed.

Lemma str_append_empty (s : string) : (s ++ "")%string = s.
Proof. induction s as [|a s IH]; cbn; [reflexivity | rewrite IH; reflexivity]. Qed.

Lemma str_partition_innings (whole : Z) (frac : string) :
  0 <= whole ->
  str_partition "." (str_of_int whole ++ "." ++ frac) = (str_of_int whole, ".", frac)%string.
Proof.
  intros Hw. destruct (str_of_int_digits whole Hw) as [u ->].
  rewrite str_partition_digits. cbn [String.append str_partition].
  change (Ascii.eqb "." ".") with true. cbv iota.
  rewrite str_append_empty. reflexivity.
Qed.

Lemma append_dot_nonempty (a b : string) :
  String.eqb (a ++ "." ++ b) "" = false.
Proof. destruct a; reflexivity. Qed.

(** X12: [ip_str_to_outs] reads the innings-pitched notation back to the
    number of outs it stands for: for every number of outs [n >= 0], the
    string made of the whole innings [n / 3], a dot and the remaining
    outs [n mod 3] is converted to [n] (so 5.1 and 5.2 are 16 and 17
    outs), whenever [int] reads a decimal literal back to its number. *)
Theorem ip_str_to_outs_round_trip (int_of_str : string -> option Z) (outs : Z) :
  (forall n, 0 <= n -> int_of_str (str_of_int n) = Some n) ->
  0 <= outs ->
  Pitching.ip_str_to_outs int_of_str (PStr (innings_notation outs)) = outs.
Proof.
  intros Hint Houts. unfold Pitching.ip_str_to_outs, innings_notation.
  cbn [truthy]. rewrite append_dot_nonempty. cbn [negb].
  assert (Hw : 0 <= outs / 3) by (apply Z.div_pos; lia).
  rewrite (str_partition_innings (outs / 3) (str_of_int (outs mod 3)) Hw).
  rewrite (Hint (outs / 3) Hw).
  pose proof (Z.div_mod outs 3 ltac:(lia)) as Hdm.
  pose proof (Z.mod_pos_bound outs 3 ltac:(lia)) as Hm.
  assert (Hcases : outs mod 3 = 0 \/ outs mod 3 = 1 \/ outs mod 3 = 2) by lia.
  destruct Hcases as [E|[E|E]]; rewrite E in *; cbn; lia.
Qed.

Lemma int_of_decimal_reads (n : Z) : 0 <= n -> int_of_decimal (str_of_int n) = Some n.
Proof.
  intros Hn. unfold int_of_decimal, str_of_int.
  rewrite NilZero.isi.
  - cbn [option_map]. rewrite DecimalZ.of_to. reflexivity.
  - destruct n as [|p|p]; cbn [Z.to_int]; [discriminate | | discriminate].
    intros E. inversion E as [E']. exact (DecimalPos.Unsigned.to_uint_nonnil p E').
  - destruct n as [|p|p]; cbn [Z.to_int]; [discriminate | discriminate | lia].
Qed.

Lemma ip_str_to_outs_round_trip_witness :
  innings_notation 17 = "5.2"%string
  /\ Pitching.ip_str_to_outs int_of_decimal (PStr (innings_notation 17)) = 17.
Proof.
  split; [reflexivity|].
  apply (ip_str_to_outs_round_trip int_of_decimal 17).
  - exact int_of_decimal_reads.
  - lia.
Defined.

(** ** Box-score lines *)

Lemma py_get_dict (items : list (string * py)) (k : string) :
  py_get (PDict items) k PNone = Ok (dict_entry items k).
Proof. reflexivity. Qed.

Lemma py_get_empty (k : string) : py_get (PDict []) k PNone = Ok PNone.
Proof. reflexivity. Qed.

Lemma por_falsy (x y : py) : truthy x = false -> por x y = y.
Proof. intros H. unfold por. rewrite H. reflexivity. Qed.

Lemma por_truthy (x y : py) : truthy x = true -> por x y = x.
Proof. intros H. unfold por. rewrite H. reflexivity. Qed.

Lemma por_note (x : py) : por (por x PNone) PNone = por x PNone.
Proof. unfold por. destruct (truthy x) eqn:E; [rewrite E|]; reflexivity. Qed.

(** The section of the statistics (pitching, batting) that the extractors
    read: the empty dict unless the node has a non-empty [stats] with a
    non-empty entry of that kind. *)
Lemma stats_section_empty (items : list (string * py)) (kind : string) :
  truthy (dict_entry items "stats") = false
  \/ (exists entries,
        dict_entry items "stats" = PDict entries
        /\ truthy (dict_entry entries kind) = false) ->
  (stats <~ py_get (PDict items) "stats" PNone ;;
   section0 <~ py_get (por stats (PDict [])) kind PNone ;;
   Ok (por section0 (PDict [])))
  = Ok (PDict []).
Proof.
  intros [H|[entries [H1 H2]]]; rewrite py_get_dict; cbn [and_then].
  - rewrite (por_falsy _ _ H). reflexivity.
  - rewrite H1. destruct entries as [|kv entries].
    + reflexivity.
    + rewrite por_truthy by reflexivity. rewrite py_get_dict. cbn [and_then].
      rewrite (por_falsy _ _ H2). reflexivity.
Qed.

(** X13: a player entry with no statistics of the kind a loader reads
    (no [stats], an empty or null one, or one whose pitching, respectively
    batting, entry is missing, null or empty) gives the line with every
    counter at 0, which the test [any_stats], respectively [any_batting],
    rejects: no row is stored for it.  The decision of the pitching line
    is the node's own note, if it has one. *)
Theorem no_stats_no_line (int_of_str : string -> option Z)
    (items : list (string * py)) (kind : string) :
  truthy (dict_entry items "stats") = false
  \/ (exists entries,
        dict_entry items "stats" = PDict entries
        /\ truthy (dict_entry entries kind) = false) ->
  (kind = "pitching"%string ->
   Pitching.extract_pitching int_of_str (PDict items)
   = Ok (Pitching.mk 0 0 0 0 0 0 0 0 0 0 (por (dict_entry items "note") PNone))
   /\ Pitching.any_stats
        (Pitching.mk 0 0 0 0 0 0 0 0 0 0 (por (dict_entry items "note") PNone)) = false)
  /\ (kind = "batting"%string ->
      Batting.extract_batting int_of_str (PDict items) = Ok (Batting.mk 0 0 0 0 0 0 0)
      /\ Batting.any_batting (Batting.mk 0 0 0 0 0 0 0) = false).
Proof.
  intros H. pose proof (stats_section_empty items kind H) as Hsec.
  rewrite py_get_dict in Hsec. cbn [and_then] in Hsec.
  split; intros ->.
  - split; [|reflexivity]. unfold Pitching.extract_pitching.
    rewrite py_get_dict. cbn [and_then].
    destruct (py_get (por (dict_entry items "stats") (PDict [])) "pitching" PNone)
      as [section0|e]; [|discriminate].
    cbn [and_then] in *. injection Hsec as Hpitch. rewrite Hpitch.
    repeat (first [rewrite py_get_empty | rewrite py_get_dict]; cbn [and_then]).
    unfold Pitching.ip_str_to_outs, to_int. cbn [truthy negb py_int].
    rewrite por_note. reflexivity.
  - split; [|reflexivity]. unfold Batting.extract_batting.
    rewrite py_get_dict. cbn [and_then].
    destruct (py_get (por (dict_entry items "stats") (PDict [])) "batting" PNone)
      as [section0|e]; [|discriminate].
    cbn [and_then] in *. injection Hsec as Hbat. rewrite Hbat.
    repeat (rewrite py_get_empty; cbn [and_then]).
    unfold to_int. cbn [py_int]. reflexivity.
Qed.

Lemma no_stats_no_line_witness :
  Pitching.extract_pitching int_of_decimal sample_bench
  = Ok (Pitching.mk 0 0 0 0 0 0 0 0 0 0 PNone)
  /\ Pitching.any_stats (Pitching.mk 0 0 0 0 0 0 0 0 0 0 PNone) = false.
Proof.
  refine (proj1 (no_stats_no_line int_of_decimal
                   [item "person" (PDict [item "id" (PInt 7)]);
                    item "stats" (PDict [item "batting" (PDict [])])]
                   "pitching" _) eq_refl).
  right. exists [item "batting" (PDict [])]. split; reflexivity.
Defined.

(** X14: the extractors do not guard the shape of what they read: when
    the [stats] of a player entry is a non-empty value that is not an
    object (a list, a string, a number), or its pitching, respectively
    batting, entry is, the [AttributeError] of the [get] call escapes
    [extract_pitching] and [extract_batting]. *)
Theorem extract_bad_shape (int_of_str : string -> option Z)
    (items : list (string * py)) :
  let stats := dict_entry items "stats" in
  truthy stats = true ->
  ((forall entries, stats <> PDict entries) ->
   Pitching.extract_pitching int_of_str (PDict items) = Err AttributeError
   /\ Batting.extract_batting int_of_str (PDict items) = Err AttributeError)
  /\ (forall entries bad,
        stats = PDict entries -> truthy bad = true ->
        (forall fields, bad <> PDict fields) ->
        (dict_entry entries "pitching" = bad ->
         Pitching.extract_pitching int_of_str (PDict items) = Err AttributeError)
        /\ (dict_entry entries "batting" = bad ->
            Batting.extract_batting int_of_str (PDict items) = Err AttributeError)).
Proof.
  intros stats Htruthy. split.
  - intros Hshape. unfold Pitching.extract_pitching, Batting.extract_batting.
    rewrite py_get_dict. cbn [and_then]. fold stats.
    rewrite (por_truthy _ _ Htruthy).
    destruct stats as [| | | | |entries]; try (split; reflexivity).
    exfalso. exact (Hshape entries eq_refl).
  - intros entries bad Hstats Hbad Hshape.
    unfold Pitching.extract_pitching, Batting.extract_batting.
    rewrite py_get_dict. cbn [and_then]. fold stats.
    rewrite (por_truthy _ _ Htruthy), Hstats, !py_get_dict. cbn [and_then].
    split; intros ->; rewrite (por_truthy _ _ Hbad);
      destruct bad as [| | | | |fields]; try reflexivity;
      exfalso; exact (Hshape fields eq_refl).
Qed.

Lemma extract_bad_shape_witness :
  Pitching.extract_pitching int_of_decimal (PDict [item "stats" (PList [PInt 1])])
  = Err AttributeError
  /\ Batting.extract_batting int_of_decimal (PDict [item "stats" (PList [PInt 1])])
     = Err AttributeError.
Proof.
  refine (proj1 (extract_bad_shape int_of_decimal [item "stats" (PList [PInt 1])] eq_refl) _).
  intros entries. discriminate.
Defined.

(** ** The box-score loaders *)

Lemma and_then_ok {A B : Type} (r : attempt A) (k : A -> attempt B) (b : B) :
  and_then r k = Ok b -> exists a, r = Ok a /\ k a = Ok b.
Proof. destruct r as [a|e]; cbn [and_then]; [eauto | discriminate]. Qed.

Tactic Notation "bind_ok" hyp(H) ident(x) ident(Hx) :=
  apply and_then_ok in H; destruct H as [x [Hx H]].



Section LoaderFacts.
Context {L : Type} (extract : py -> attempt L) (any_line : L -> bool).









End LoaderFacts.



(** ** The schedule loader *)

Lemma length_str_prefix (n : nat) (s : string) : (String.length (str_prefix n s) <= n)%nat.
Proof.
  revert s. induction n as [|n IH]; intros [|a s]; cbn [str_prefix String.length]; try lia.
  specialize (IH s). lia.
Qed.

Lemma load_game_sound (g : py) (calls : list Games.upsert_args) :
  Games.load_game g = Ok calls ->
  (length calls <= 1)%nat /\ Forall sound_upsert calls.
Proof.
  intros H. unfold Games.load_game in H. bind_ok H pk Hpk.
  assert (Hcall :
    pk <> PNone ->
    (game_date <~ py_get g "gameDate" PNone ;;
     gdate_iso <~ Games.py_slice_to 10 (por game_date (PStr "")) ;;
     teams <~ py_get g "teams" (PDict []) ;;
     home <~ py_get teams "home" (PDict []) ;;
     away <~ py_get teams "away" (PDict []) ;;
     home_team <~ py_get home "team" PNone ;;
     home_id <~ py_get (por home_team (PDict [])) "id" PNone ;;
     away_team <~ py_get away "team" PNone ;;
     away_id <~ py_get (por away_team (PDict [])) "id" PNone ;;
     home_score <~ py_get home "score" PNone ;;
     away_score <~ py_get away "score" PNone ;;
     venue0 <~ py_get g "venue" PNone ;;
     venue <~ py_get (por venue0 (PDict [])) "name" (PStr "") ;;
     if truthy home_id && truthy away_id
     then Ok [Games.mkArgs pk gdate_iso home_id away_id home_score away_score venue]
     else Ok []) = Ok calls ->
    (length calls <= 1)%nat /\ Forall sound_upsert calls).
  { clear H. intros Hnone H.
    bind_ok H game_date Hdate. bind_ok H gdate_iso Hiso. bind_ok H teams Hteams.
    bind_ok H home Hhome. bind_ok H away Haway. bind_ok H home_team Hht.
    bind_ok H home_id Hhid. bind_ok H away_team Hat. bind_ok H away_id Haid.
    bind_ok H home_score Hhs. bind_ok H away_score Has. bind_ok H venue0 Hv0.
    bind_ok H venue Hv.
    destruct (truthy home_id) eqn:Eh; [destruct (truthy away_id) eqn:Ea|];
      cbn [andb] in H; injection H as <-;
      [| split; [cbn [length]; lia | constructor] ..].
    split; [cbn [length]; lia|]. constructor; [|constructor].
    unfold sound_upsert. cbn [Games.arg_pk Games.arg_gdate Games.arg_home_id
                               Games.arg_away_id].
    repeat split; try assumption.
    unfold Games.py_slice_to in Hiso.
    destruct (por game_date (PStr "")) as [| | |s|items|]; try discriminate;
      injection Hiso as <-.
    - exact (length_str_prefix 10 s).
    - exact (firstn_le_length 10 items). }
  destruct pk; try (apply Hcall; [discriminate | exact H]).
  injection H as <-. split; [cbn [length]; lia | constructor].
Qed.

Lemma load_day_games_sound (games : list py) (calls : list Games.upsert_args) :
  Games.load_day_games games = Ok calls ->
  (length calls <= length games)%nat /\ Forall sound_upsert calls.
Proof.
  revert calls. induction games as [|g rest IH]; intros calls H;
    cbn [Games.load_day_games] in H.
  - injection H as <-. split; [cbn [length]; lia | constructor].
  - bind_ok H a Ha. bind_ok H b Hb. injection H as <-.
    destruct (load_game_sound _ _ Ha) as [Ha1 Ha2]. destruct (IH _ Hb) as [Hb1 Hb2].
    split; [rewrite length_app; cbn [length]; lia | apply Forall_app; split; assumption].
Qed.

Lemma load_days_sound (dates : list py) (calls : list Games.upsert_args) :
  Games.load_days dates = Ok calls -> Forall sound_upsert calls.
Proof.
  revert calls. induction dates as [|d rest IH]; intros calls H; cbn [Games.load_days] in H.
  - injection H as <-. constructor.
  - bind_ok H a Ha. bind_ok H b Hb. injection H as <-.
    apply Forall_app. split; [|exact (IH _ Hb)].
    unfold Games.load_day in Ha. bind_ok Ha games0 Hg0. bind_ok Ha games Hg.
    exact (proj2 (load_day_games_sound _ _ Ha)).
Qed.

(** X16: every [upsert_game] call that [load_games_by_range] makes when
    it runs to its end has a game id that is not [None], non-empty (and
    non-zero) home and away team ids, and a date of at most ten
    characters (a slice of a string, or of a list, of at most ten
    items); the number it prints is the number of calls. *)
Theorem load_games_by_range_calls (sched : py) (calls : list Games.upsert_args) (n : Z) :
  Games.load_games_by_range sched = Ok (calls, n) ->
  n = Z.of_nat (length calls) /\ Forall sound_upsert calls.
Proof.
  intros H. unfold Games.load_games_by_range in H.
  bind_ok H dates0 Hd0. bind_ok H dates Hd. bind_ok H made Hmade.
  injection H as <- <-. split; [reflexivity | exact (load_days_sound _ _ Hmade)].
Qed.

Lemma load_games_by_range_calls_witness :
  exists calls,
    Games.load_games_by_range sample_schedule = Ok (calls, 1)
    /\ 1 = Z.of_nat (length calls) /\ Forall sound_upsert calls.
Proof.
  eexists. split; [vm_compute; reflexivity|].
  apply (load_games_by_range_calls sample_schedule). vm_compute. reflexivity.
Defined.

(** ** The run-differential tab *)

(** X17: the run-differential tab raises nothing and calls no model,
    whatever the window: it shows one bar for each game of the selected
    team dated within the chosen range, first the team's home games with
    the home score minus the away score, then its away games with the
    away score minus the home score, each group in the order of the games
    table; the "games shown" count is the number of bars. *)
Theorem runs_tab_view (F Model : Type)
    (fit : list (Q * Z) -> list Z -> result Model)
    (predict_proba : Model -> list (Q * Z) -> list F)
    (coef_ : Model -> list F)
    (roc_auc_score : list Z -> list F -> result F)
    (sort_values : list TG.t -> list TG.t)
    (GAMES : list Game.t) (ABBR_BY_ID : Z -> option string)
    (team_id W start end_ : Z) :
  let played (side : Game.t -> Z) :=
    filter (fun g => (side g =? team_id) && in_range start end_ (Game.date g)) GAMES in
  let bars :=
    map (fun g => (Game.date g, Game.home_score g - Game.away_score g))
        (played Game.home_team_id)
    ++ map (fun g => (Game.date g, Game.away_score g - Game.home_score g))
           (played Game.away_team_id) in
  render_tab F Model fit predict_proba coef_ roc_auc_score sort_values GAMES
             ABBR_BY_ID "tab-runs" team_id W start end_
  = ([], Return (RunsView bars (length bars)))
  /\ Forall (fun bar => start <= fst bar <= end_) bars.
Proof.
  intros played bars. split.
  - unfold render_tab.
    change (String.eqb "tab-runs" "tab-trend") with false.
    change (String.eqb "tab-runs" "tab-runs") with true. cbv iota.
    unfold runs_tab, tret, TEAM_GAMES, team_game_view.
    rewrite filter_twice, filter_app, !filter_map_comm, map_app, !map_map.
    cbn [home_view away_view TG.team_id TG.date TG.runs_for TG.runs_against].
    unfold bars, played. rewrite !length_app, !length_map. reflexivity.
  - apply Forall_forall. intros [d v] Hin. unfold bars in Hin.
    apply in_app_or in Hin.
    assert (Hrange : forall g side, In g (played side) -> start <= Game.date g <= end_).
    { intros g side Hg. unfold played in Hg. apply filter_In in Hg.
      destruct Hg as [_ Hg]. apply andb_true_iff in Hg. destruct Hg as [_ Hg].
      unfold in_range in Hg. apply andb_true_iff in Hg. destruct Hg as [H1 H2].
      apply Z.leb_le in H1, H2. lia. }
    destruct Hin as [Hin|Hin]; apply in_map_iff in Hin; destruct Hin as [g [Heq Hg]];
      inversion Heq; subst; cbn [fst]; exact (Hrange _ _ Hg).
Qed.
